(** * Invenio-Archivematica REST views: a shallow embedding

    The development follows [invenio_archivematica/views/rest.py]: the
    decorators [pass_accession_id] and [check_permission], the validator
    [validate_status], and the three handlers [Archive.patch],
    [Archive.get] and [ArchiveDownload.get].

    Python objects that the handlers mutate live in an explicit [World]:
    the SQLAlchemy session (the [archive] object a handler holds is a
    reference into it), the committed database, the invocations of the
    dispatch table [change_status_func] and the outbound HTTP requests.
    Handlers are computations in a small state-and-exception monad. *)

From stdpp Require Import base decidable option list gmap strings.
From Stdlib Require Import ZArith String Bool Lia.

Local Open Scope string_scope.
Local Open Scope Z_scope.

(** ** Data model *)

(** Modelled from the spec: [models.ArchiveStatus] (models.py is not part
    of the sources at hand); the six statuses of the Status Model. *)
Inductive ArchiveStatus : Type :=
| NEW
| WAITING
| PROCESSING_TRANSFER
| PROCESSING_AIP
| REGISTERED
| FAILED.

#[global] Instance ArchiveStatus_eq_dec : EqDecision ArchiveStatus.
Proof. solve_decision. Defined.

(** [ArchiveStatus.value], as serialised by [_to_json]. *)
Definition value (s : ArchiveStatus) : string :=
  match s with
  | NEW => "NEW"
  | WAITING => "WAITING"
  | PROCESSING_TRANSFER => "PROCESSING_TRANSFER"
  | PROCESSING_AIP => "PROCESSING_AIP"
  | REGISTERED => "REGISTERED"
  | FAILED => "FAILED"
  end.

(** Modelled from the spec: the [models.Archive] row.  The [sip]
    relationship is represented by the identifier of the SIP it links to. *)
Record Archive_ : Type := mkArchive {
  sip_id : string;
  status : ArchiveStatus;
  accession_id : string;
  archivematica_id : string
}.

#[global] Instance Archive_eq_dec : EqDecision Archive_.
Proof. solve_decision. Defined.

Definition set_status (s : ArchiveStatus) (a : Archive_) : Archive_ :=
  mkArchive (sip_id a) s (accession_id a) (archivematica_id a).

Definition set_archivematica_id (u : string) (a : Archive_) : Archive_ :=
  mkArchive (sip_id a) (status a) (accession_id a) u.

(** Python truthiness of a [str]. *)
Definition truthy (s : string) : bool := negb (String.eqb s "").

(** ** Exceptions, responses, outbound HTTP *)

Inductive Exn : Type :=
| HTTPException (code : Z) (description : string)  (* flask.abort *)
| ValidationError (field : string)                 (* webargs validation *)
| InvalidStatus (s : string)                       (* status_converter *)
| UnboundLocalError (name : string)
| KeyError (key : string)
| ValueError
| ConnectionError
| ObjectDeletedError.

Inductive Outcome (A : Type) : Type :=
| Ok (a : A)
| Raise (e : Exn).
Arguments Ok {A} a.
Arguments Raise {A} e.

Inductive Body : Type :=
| Json (obj : list (string * string))
| Text (s : string)
| Stream (chunk_size : Z) (content : string).

Record Response : Type := mkResponse {
  body : Body;
  status_code : Z;
  content_type : option string;
  headers : list (string * string)
}.

(** [jsonify(d)] and [jsonify(d), code]. *)
Definition jsonify (d : list (string * string)) (code : Z) : Response :=
  mkResponse (Json d) code (Some "application/json") [].

(** [make_response(text, code)]. *)
Definition make_response (text : string) (code : Z) : Response :=
  mkResponse (Text text) code None [].

(** The query parameters sent with every call to Archivematica. *)
Record Params : Type := mkParams {
  username : string;
  api_key : string
}.

(** What [requests.get] hands back: a response object with its status
    code, its JSON document (if the body is one), headers and content. *)
Record UpstreamResponse : Type := mkUpstream {
  up_status_code : Z;
  up_json : option (gmap string string);
  up_headers : list (string * string);
  up_content : string
}.

(** [response.ok]: [raise_for_status] raises for codes in 400..599. *)
Definition ok (r : UpstreamResponse) : bool :=
  negb ((400 <=? up_status_code r) && (up_status_code r <? 600)).

Inductive Upstream : Type :=
| Answered (r : UpstreamResponse)
| Unreachable.   (* requests.exceptions.ConnectionError *)

(** One invocation of an entry of [change_status_func]. *)
Record Dispatch : Type := mkDispatch {
  d_status : ArchiveStatus;
  d_sip : string;
  d_accession_id : string;
  d_archivematica_id : string
}.

(** One outbound [requests.get]. *)
Record Outbound : Type := mkOutbound {
  o_url : string;
  o_params : Params;
  o_stream : bool
}.

(** ** The world a handler runs in *)

Record World : Type := mkWorld {
  session : gmap string Archive_;     (* objects of [db.session] *)
  database : gmap string Archive_;    (* what has been committed *)
  dispatched : list Dispatch;         (* calls through [change_status_func] *)
  requested : list Outbound;          (* calls of [requests.get] *)
  checked : list (string * string)    (* permission checks: action, accession *)
}.

Definition M (A : Type) : Type := World -> Outcome A * World.

Definition ret {A} (a : A) : M A := fun w => (Ok a, w).

Definition raise {A} (e : Exn) : M A := fun w => (Raise e, w).

Definition bind {A B} (m : M A) (k : A -> M B) : M B :=
  fun w =>
    match m w with
    | (Ok a, w') => k a w'
    | (Raise e, w') => (Raise e, w')
    end.

#[global] Instance M_ret : MRet M := @ret.
#[global] Instance M_bind : MBind M := fun A B k m => bind m k.

(** [archive.<field>]: the handler's [archive] is the session object of
    the accession it was resolved from. *)
Definition attr {A} (f : Archive_ -> A) (archive : string) : M A :=
  fun w =>
    match session w !! archive with
    | Some a => (Ok (f a), w)
    | None => (Raise ObjectDeletedError, w)
    end.

(** [archive.archivematica_id = u]. *)
Definition assign_archivematica_id (archive : string) (u : string) : M unit :=
  fun w =>
    (Ok tt,
     mkWorld (alter (set_archivematica_id u) archive (session w))
             (database w) (dispatched w) (requested w) (checked w)).

(** [db.session.commit()]. *)
Definition commit : M unit :=
  fun w =>
    (Ok tt, mkWorld (session w) (session w) (dispatched w) (requested w) (checked w)).

(** Lift a pure outcome (a call that touches nothing). *)
Definition lift {A} (o : Outcome A) : M A := fun w => (o, w).

(** Modelled from the spec: [api.change_status_func] (api.py is not part of
    the sources at hand).  The action registered for status [s], called
    with [(sip, accession_id, archivematica_id)], persists the new status
    on the Archive Record matching [accession_id]; the invocation itself
    is recorded. *)
Definition change_status_func (s : ArchiveStatus)
    (sip acc amid : string) : M unit :=
  fun w =>
    let sess := alter (set_status s) acc (session w) in
    (Ok tt,
     mkWorld sess sess (dispatched w ++ [mkDispatch s sip acc amid])
             (requested w) (checked w)).

(** [Archive._to_json]. *)
Definition to_json_obj (ark : Archive_) : list (string * string) :=
  [("sip_id", sip_id ark);
   ("status", value (status ark));
   ("accession_id", accession_id ark);
   ("archivematica_id", archivematica_id ark)].

Definition _to_json (archive : string) : M Response :=
  ark ← attr id archive;
  mret (jsonify (to_json_obj ark) 200).

(** ** Configuration and requests *)

(** The entries of [current_app.config] the views read. *)
Record Config : Type := mkConfig {
  ARCHIVEMATICA_DASHBOARD_URL : string;
  ARCHIVEMATICA_DASHBOARD_USER : string;
  ARCHIVEMATICA_DASHBOARD_API_KEY : string;
  ARCHIVEMATICA_STORAGE_URL : string;
  ARCHIVEMATICA_STORAGE_USER : string;
  ARCHIVEMATICA_STORAGE_API_KEY : string
}.

(** What a view receives: the [accession_id] of the route and the fields
    of the JSON body that [use_kwargs] looks for. *)
Record Request : Type := mkRequest {
  route_accession_id : string;
  json_status : option string;
  json_archivematica_id : option string;
  json_realStatus : option bool
}.

(** Control leaves the transfer block of [Archive.get] either through a
    [return] or by falling through to the ingest poll; in the second case
    the local variable [params] is bound or not. *)
Inductive Flow : Type :=
| Returned (r : Response)
| FallThrough (params : option Params).

(** [response.json()[key]]. *)
Definition json_item (r : UpstreamResponse) (key : string) : Outcome string :=
  match up_json r with
  | None => Raise ValueError
  | Some d =>
      match d !! key with
      | Some v => Ok v
      | None => Raise (KeyError key)
      end
  end.

(** Reading a local variable that may not have been assigned. *)
Definition local {A} (name : string) (v : option A) : Outcome A :=
  match v with
  | Some a => Ok a
  | None => Raise (UnboundLocalError name)
  end.

(** Calling a decorator of the framework that either lets the request
    through or aborts it. *)
Definition guard (verdict : option Exn) : M unit :=
  match verdict with
  | None => mret tt
  | Some e => raise e
  end.

(** [try: m except ConnectionError: h]. *)
Definition try_except_ConnectionError {A} (m h : M A) : M A :=
  fun w =>
    match m w with
    | (Raise ConnectionError, w') => h w'
    | r => r
    end.

(** ** Concrete instances, for running the views *)

Definition sample_config : Config :=
  mkConfig "http://dashboard" "user" "key" "http://storage" "suser" "skey".

(** Modelled from the spec: an instance of [models.status_converter]
    (models.py is not part of the sources at hand).  It follows the
    conversion contract of the Status Model: the Archival Service says
    COMPLETE, FAILED or PROCESSING, the last one meaning the transfer or
    the AIP stage according to the flag; the names of the local statuses
    are recognised as themselves; any other string is rejected. *)
Definition sample_converter (s : string) (aip_processing : bool)
    : Outcome (option ArchiveStatus) :=
  if String.eqb s "COMPLETE" then Ok (Some REGISTERED)
  else if String.eqb s "PROCESSING"
  then Ok (Some (if aip_processing then PROCESSING_AIP else PROCESSING_TRANSFER))
  else if String.eqb s "FAILED" then Ok (Some FAILED)
  else if String.eqb s "NEW" then Ok (Some NEW)
  else if String.eqb s "WAITING" then Ok (Some WAITING)
  else if String.eqb s "PROCESSING_TRANSFER" then Ok (Some PROCESSING_TRANSFER)
  else if String.eqb s "PROCESSING_AIP" then Ok (Some PROCESSING_AIP)
  else if String.eqb s "REGISTERED" then Ok (Some REGISTERED)
  else Raise (InvalidStatus s).

(** An Archival Service that answers the listed URLs and is unreachable
    on any other. *)
Fixpoint answers (table : list (string * UpstreamResponse))
    (url : string) (params : Params) : Upstream :=
  match table with
  | [] => Unreachable
  | (u, r) :: rest =>
      if String.eqb u url then Answered r else answers rest url params
  end.

Definition json_answer (code : Z) (fields : list (string * string))
    : UpstreamResponse :=
  mkUpstream code (Some (list_to_map fields)) [] "".

Definition error_answer (code : Z) : UpstreamResponse :=
  mkUpstream code None [] "".

(** A world holding one archive, with a clean session. *)
Definition world_of (a : Archive_) : World :=
  mkWorld {[ accession_id a := a ]} {[ accession_id a := a ]} [] [] [].

Definition let_through : Request -> option Exn := fun _ => None.
Definition grant_all : string -> string -> bool := fun _ _ => true.
Definition deny_all : string -> string -> bool := fun _ _ => false.

Definition waiting_T1 : Archive_ := mkArchive "S1" WAITING "A1" "T1".
Definition processing_aip_P : Archive_ := mkArchive "S1" PROCESSING_AIP "A1" "P".
Definition registered_P : Archive_ := mkArchive "S1" REGISTERED "A1" "P".
Definition new_empty : Archive_ := mkArchive "S1" NEW "A1" "".

Definition transfer_url_T1 : string := "http://dashboard/api/transfer/status/T1/".
Definition ingest_url_P : string := "http://dashboard/api/ingest/status/P/".
Definition storage_url_P : string := "http://storage/api/v2/file/P/download/".

Definition transfer_complete_P : UpstreamResponse :=
  json_answer 200 [("status", "COMPLETE"); ("sip_uuid", "P")].

Definition processing_transfer_T1 : Archive_ :=
  mkArchive "S1" PROCESSING_TRANSFER "A1" "T1".

Definition status_answer (s : string) : UpstreamResponse :=
  json_answer 200 [("status", s)].

Definition file_answer : UpstreamResponse :=
  mkUpstream 200 None [("Content-Length", "3")] "abc".


(** The transfer poll fails. *)
Definition service_transfer_fails : string -> Params -> Upstream :=
  answers [(transfer_url_T1, error_answer 500)].

(** The package P is still being processed. *)
Definition service_ingest_processing : string -> Params -> Upstream :=
  answers [(ingest_url_P, status_answer "PROCESSING")].

(** The transfer T1 is complete and gave the package P, which is still
    being processed. *)
Definition service_package_processing : string -> Params -> Upstream :=
  answers [(transfer_url_T1, transfer_complete_P);
           (ingest_url_P, status_answer "PROCESSING")].

(** The transfer T1 is complete and the package P is stored. *)
Definition service_package_complete : string -> Params -> Upstream :=
  answers [(transfer_url_T1, transfer_complete_P);
           (ingest_url_P, status_answer "COMPLETE")].

(** The transfer T1 is complete; the status of the package P cannot be
    fetched. *)
Definition service_ingest_fails : string -> Params -> Upstream :=
  answers [(transfer_url_T1, transfer_complete_P);
           (ingest_url_P, error_answer 500)].

(** The storage service serves the file of the package P. *)
Definition service_storage : string -> Params -> Upstream :=
  answers [(storage_url_P, file_answer)].

(** No endpoint can be reached. *)
Definition service_down : string -> Params -> Upstream := answers [].

Definition request_for (accession : string) (st amid : option string)
    (real_status : option bool) : Request :=
  mkRequest accession st amid real_status.

Definition other_archive : Archive_ := mkArchive "S2" NEW "A2" "".

(** A world holding two archives, with a clean session. *)
Definition world_of_two (a b : Archive_) : World :=
  mkWorld (<[ accession_id b := b ]> {[ accession_id a := a ]})
          (<[ accession_id b := b ]> {[ accession_id a := a ]}) [] [] [].

(** The transfer T1 has failed. *)
Definition service_transfer_failed : string -> Params -> Upstream :=
  answers [(transfer_url_T1, status_answer "FAILED")].

(** The transfer T1 is reported complete, without a package. *)
Definition service_transfer_no_package : string -> Params -> Upstream :=
  answers [(transfer_url_T1, status_answer "COMPLETE")].

(** The transfer T1 is complete; the ingest endpoint cannot be reached. *)
Definition service_ingest_unreachable : string -> Params -> Upstream :=
  answers [(transfer_url_T1, transfer_complete_P)].

(** The storage service does not find the file of the package P. *)
Definition service_storage_error : string -> Params -> Upstream :=
  answers [(storage_url_P, error_answer 404)].

(** A guard that turns every request down. *)
Definition turn_down : Request -> option Exn :=
  fun _ => Some (HTTPException 401 "").

Section Views.

Variable config : Config.

(** [models.status_converter(status, aip_processing)]: it returns a
    status, or a falsy value ([None]), or raises. *)
Variable status_converter : string -> bool -> Outcome (option ArchiveStatus).

(** The Archival Service, as seen through [requests.get]. *)
Variable network : string -> Params -> Upstream.

(** [require_api_auth()] and [require_oauth_scopes(archive_scope.id)]. *)
Variable require_api_auth : Request -> option Exn.
Variable require_oauth_scopes : Request -> option Exn.

(** [Permission(_action2need_map[permission](parameter))] is granted. *)
Variable permission_granted : string -> string -> bool.

(** The URLs and credentials the views build from the configuration. *)
Definition transfer_status_url (uuid : string) : string :=
  ARCHIVEMATICA_DASHBOARD_URL config ++ "/api/transfer/status/" ++ uuid ++ "/".

Definition ingest_status_url (uuid : string) : string :=
  ARCHIVEMATICA_DASHBOARD_URL config ++ "/api/ingest/status/" ++ uuid ++ "/".

Definition download_url (uuid : string) : string :=
  ARCHIVEMATICA_STORAGE_URL config ++ "/api/v2/file/" ++ uuid ++ "/download/".

Definition dashboard_params : Params :=
  mkParams (ARCHIVEMATICA_DASHBOARD_USER config)
           (ARCHIVEMATICA_DASHBOARD_API_KEY config).

Definition storage_params : Params :=
  mkParams (ARCHIVEMATICA_STORAGE_USER config)
           (ARCHIVEMATICA_STORAGE_API_KEY config).

Definition requests_get (url : string) (params : Params) (stream : bool)
    : M UpstreamResponse :=
  fun w =>
    let w' := mkWorld (session w) (database w) (dispatched w)
                      (requested w ++ [mkOutbound url params stream])
                      (checked w) in
    match network url params with
    | Answered r => (Ok r, w')
    | Unreachable => (Raise ConnectionError, w')
    end.

(** [change_status_func[status](archive.sip, archive.accession_id,
    archive.archivematica_id)]; the subscript is evaluated first. *)
Definition change_status (st : option ArchiveStatus) (archive : string)
    : M unit :=
  match st with
  | None => raise (KeyError "None")
  | Some s =>
      sip ← attr sip_id archive;
      acc ← attr accession_id archive;
      amid ← attr archivematica_id archive;
      change_status_func s sip acc amid
  end.

(** *** Decorators *)

Definition pass_accession_id {A} (req : Request) (f : string -> M A) : M A :=
  fun w =>
    let accession := route_accession_id req in
    match session w !! accession with
    | None =>
        (Raise (HTTPException 404
                  ("Accession_id " ++ accession ++ " not found.")), w)
    | Some _ => f accession w
    end.

Definition record_check (action parameter : string) : M unit :=
  fun w =>
    (Ok tt, mkWorld (session w) (database w) (dispatched w) (requested w)
                    (checked w ++ [(action, parameter)])).

Definition check_permission {A} (action : string) (archive : string)
    (f : M A) : M A :=
  parameter ← attr accession_id archive;
  record_check action parameter;;
  if permission_granted action parameter then f
  else raise (HTTPException 403 "").

Definition validate_status (st : string) : bool :=
  match status_converter st false with
  | Ok _ => true
  | Raise _ => false
  end.

(** *** [Archive.patch] *)

Definition patch (archive : string) (st amid : string) : M Response :=
  (if truthy amid then
     cur ← attr archivematica_id archive;
     if negb (String.eqb amid cur)
     then assign_archivematica_id archive amid
     else mret tt
   else mret tt);;
  commit;;
  ark_status ← lift (status_converter st false);
  match ark_status with
  | Some s =>
      cur ← attr status archive;
      if bool_decide (s ≠ cur) then change_status (Some s) archive
      else mret tt
  | None => mret tt
  end;;
  _to_json archive.

(** *** [Archive.get] *)

(** Lines 180-205: the transfer poll. *)
Definition get_transfer (archive : string) : M Flow :=
  uuid ← attr archivematica_id archive;
  let url := transfer_status_url uuid in
  let params := dashboard_params in
  response ← requests_get url params false;
  if negb (ok response)
  then mret (Returned (jsonify [] (up_status_code response)))
  else
    s ← lift (json_item response "status");
    st ← lift (status_converter s false);
    if bool_decide (st ≠ Some REGISTERED) then
      cur ← attr status archive;
      (if bool_decide (st ≠ Some cur) then change_status st archive
       else mret tt);;
      r ← _to_json archive;
      mret (Returned r)
    else
      package ← lift (json_item response "sip_uuid");
      assign_archivematica_id archive package;;
      change_status (Some PROCESSING_AIP) archive;;
      mret (FallThrough (Some params)).

(** Lines 206-218: the ingest (AIP) poll. *)
Definition get_ingest (archive : string) (params : option Params)
    : M Response :=
  uuid ← attr archivematica_id archive;
  let url := ingest_status_url uuid in
  p ← lift (local "params" params);
  response ← requests_get url p false;
  if negb (ok response)
  then mret (jsonify [] (up_status_code response))
  else
    s ← lift (json_item response "status");
    st ← lift (status_converter s true);
    cur ← attr status archive;
    (if bool_decide (st ≠ Some cur) then change_status st archive
     else mret tt);;
    _to_json archive.

Definition get (archive : string) (real_status : bool) : M Response :=
  st ← attr status archive;
  amid ← attr archivematica_id archive;
  if negb real_status
     || bool_decide (st = FAILED)
     || bool_decide (st = NEW)
     || negb (truthy amid)
  then _to_json archive
  else
    flow ← (if bool_decide (st = WAITING)
               || bool_decide (st = PROCESSING_TRANSFER)
            then get_transfer archive
            else mret (FallThrough None));
    match flow with
    | Returned r => mret r
    | FallThrough params => get_ingest archive params
    end.

(** *** [ArchiveDownload.get] *)

Definition download (archive : string) : M Response :=
  st ← attr status archive;
  amid ← attr archivematica_id archive;
  if negb (bool_decide (st = REGISTERED)) || negb (truthy amid)
  then mret (make_response "Archive has not been registered yet." 412)
  else
    try_except_ConnectionError
      (uuid ← attr archivematica_id archive;
       let url := download_url uuid in
       let params := storage_params in
       response ← requests_get url params true;
       if ok response
       then mret (mkResponse (Stream (10 * 1024) (up_content response)) 200
                             (Some "application/octet-stream")
                             (up_headers response))
       else mret (make_response "" (up_status_code response)))
      (mret (make_response "Connection problem with Archivematica" 520)).

(** *** The decorated views *)

Definition patch_view (req : Request) : M Response :=
  guard (require_api_auth req);;
  guard (require_oauth_scopes req);;
  pass_accession_id req (fun archive =>
    check_permission "archive-write" archive
      (match json_status req with
       | Some s =>
           if validate_status s
           then patch archive s (default "" (json_archivematica_id req))
           else raise (ValidationError "status")
       | None => patch archive "" (default "" (json_archivematica_id req))
       end)).

Definition get_view (req : Request) : M Response :=
  guard (require_api_auth req);;
  guard (require_oauth_scopes req);;
  pass_accession_id req (fun archive =>
    check_permission "archive-read" archive
      (get archive (default false (json_realStatus req)))).

Definition download_view (req : Request) : M Response :=
  guard (require_api_auth req);;
  guard (require_oauth_scopes req);;
  pass_accession_id req download.


(** ** Stepping through a handler *)

Lemma bind_unfold {A B} (m : M A) (k : A -> M B) (w : World) :
  (m ≫= k) w =
  match m w with
  | (Ok a, w') => k a w'
  | (Raise e, w') => (Raise e, w')
  end.
Proof. reflexivity. Qed.

Lemma attr_Some {A} (f : Archive_ -> A) (archive : string) (a : Archive_)
    (w : World) :
  session w !! archive = Some a -> attr f archive w = (Ok (f a), w).
Proof. intros H. unfold attr. by rewrite H. Qed.

Lemma truthy_false (s : string) : truthy s = false <-> s = "".
Proof. unfold truthy. rewrite negb_false_iff. apply String.eqb_eq. Qed.

Lemma truthy_true (s : string) : truthy s = true <-> s ≠ "".
Proof. unfold truthy. rewrite negb_true_iff. apply String.eqb_neq. Qed.

Lemma to_json_Some (archive : string) (a : Archive_) (w : World) :
  session w !! archive = Some a ->
  _to_json archive w = (Ok (jsonify (to_json_obj a) 200), w).
Proof.
  intros H. unfold _to_json.
  rewrite bind_unfold, (attr_Some _ _ _ _ H). reflexivity.
Qed.

Lemma requests_get_answered (url : string) (p : Params) (stream : bool)
    (r : UpstreamResponse) (w : World) :
  network url p = Answered r ->
  requests_get url p stream w =
  (Ok r, mkWorld (session w) (database w) (dispatched w)
                 (requested w ++ [mkOutbound url p stream]) (checked w)).
Proof. intros H. unfold requests_get. by rewrite H. Qed.

(** Running a handler on an archive; [step] resolves the attribute read
    or the bind at the head of the goal. *)
Ltac step H :=
  rewrite ?bind_unfold;
  first [ rewrite (attr_Some _ _ _ _ H)
        | rewrite (to_json_Some _ _ _ H) ];
  cbv beta iota.

(** ** The cheap path of [Archive.get] *)

(** C5. When [real_status] is false, or the cached status is FAILED or
    NEW, or the archive has no Archivematica identifier, [Archive.get]
    answers 200 with the snapshot of the cached record and leaves the
    world as it found it: nothing is requested from the Archival
    Service, nothing goes through [change_status_func], and the record
    is the same. *)
Theorem get_returns_cached_record (w : World) (archive : string)
    (a : Archive_) (real_status : bool) :
  session w !! archive = Some a ->
  real_status = false \/ status a = FAILED \/ status a = NEW
    \/ archivematica_id a = "" ->
  get archive real_status w = (Ok (jsonify (to_json_obj a) 200), w).
Proof.
  intros Ha Hc. unfold get. step Ha. step Ha.
  assert (negb real_status || bool_decide (status a = FAILED)
          || bool_decide (status a = NEW)
          || negb (truthy (archivematica_id a)) = true) as ->.
  { destruct Hc as [-> | [H | [H | H]]]; [reflexivity | | | ].
    - rewrite (bool_decide_eq_true_2 _ H). by rewrite !orb_true_r.
    - rewrite (bool_decide_eq_true_2 _ H). by rewrite !orb_true_r.
    - apply truthy_false in H. rewrite H. by rewrite !orb_true_r. }
  by apply to_json_Some.
Qed.

(** ** The ingest poll without a transfer poll *)

Lemma get_skips_cheap_path (a : Archive_) :
  status a ≠ FAILED -> status a ≠ NEW -> archivematica_id a ≠ "" ->
  negb true || bool_decide (status a = FAILED)
    || bool_decide (status a = NEW)
    || negb (truthy (archivematica_id a)) = false.
Proof.
  intros H1 H2 H3.
  rewrite (bool_decide_eq_false_2 _ H1), (bool_decide_eq_false_2 _ H2).
  apply truthy_true in H3. by rewrite H3.
Qed.

(** With a cached status that is neither WAITING nor PROCESSING_TRANSFER
    the transfer block is skipped, [params] is never assigned, and the
    call of [requests.get] for the ingest poll cannot evaluate its
    argument. *)
Lemma get_ingest_unbound_params (w : World) (archive : string)
    (a : Archive_) :
  session w !! archive = Some a ->
  status a = PROCESSING_AIP \/ status a = REGISTERED ->
  archivematica_id a ≠ "" ->
  get archive true w = (Raise (UnboundLocalError "params"), w).
Proof.
  intros Ha Hs Hid. unfold get. step Ha. step Ha.
  rewrite get_skips_cheap_path; [| intros E; rewrite E in Hs; by destruct Hs ..| done].
  assert (bool_decide (status a = WAITING)
          || bool_decide (status a = PROCESSING_TRANSFER) = false) as ->.
  { by destruct Hs as [-> | ->]. }
  rewrite bind_unfold. cbn [mret M_ret ret].
  unfold get_ingest. step Ha. reflexivity.
Qed.

(** ** The precondition of [ArchiveDownload.get] *)

(** C9. A download of an archive whose status is not REGISTERED, or
    that has no Archivematica identifier, is answered 412 and leaves
    the world as it found it: in particular nothing is requested from
    the Archival Service. *)
Theorem download_requires_registered (w : World) (archive : string)
    (a : Archive_) :
  session w !! archive = Some a ->
  status a ≠ REGISTERED \/ archivematica_id a = "" ->
  download archive w
  = (Ok (make_response "Archive has not been registered yet." 412), w).
Proof.
  intros Ha Hc. unfold download. step Ha. step Ha.
  assert (negb (bool_decide (status a = REGISTERED))
          || negb (truthy (archivematica_id a)) = true) as ->; [|done].
  destruct Hc as [H | H].
  - by rewrite (bool_decide_eq_false_2 _ H).
  - apply truthy_false in H. rewrite H. apply orb_true_r.
Qed.

(** ** The decorators in front of the handlers *)

Ltac unfold_view :=
  unfold patch_view, get_view, download_view, guard, pass_accession_id,
    check_permission, record_check, attr, raise;
  unfold mbind, M_bind, bind, mret, M_ret, ret.

(** An authenticated request for a known accession reaches
    [check_permission], which asks for the permission on the accession
    and then either runs the handler or aborts with 403. *)
Lemma get_view_reaches (req : Request) (w : World) (a : Archive_) :
  require_api_auth req = None ->
  require_oauth_scopes req = None ->
  session w !! route_accession_id req = Some a ->
  get_view req w =
  let w1 := mkWorld (session w) (database w) (dispatched w) (requested w)
                    (checked w ++ [("archive-read", accession_id a)]) in
  if permission_granted "archive-read" (accession_id a)
  then get (route_accession_id req) (default false (json_realStatus req)) w1
  else (Raise (HTTPException 403 ""), w1).
Proof.
  intros H1 H2 Ha. unfold_view. rewrite H1, H2, Ha. cbn.
  by destruct (permission_granted _ _).
Qed.

Lemma patch_view_reaches (req : Request) (w : World) (a : Archive_) :
  require_api_auth req = None ->
  require_oauth_scopes req = None ->
  session w !! route_accession_id req = Some a ->
  patch_view req w =
  let w1 := mkWorld (session w) (database w) (dispatched w) (requested w)
                    (checked w ++ [("archive-write", accession_id a)]) in
  if permission_granted "archive-write" (accession_id a)
  then match json_status req with
       | Some s =>
           if validate_status s
           then patch (route_accession_id req) s
                      (default "" (json_archivematica_id req)) w1
           else (Raise (ValidationError "status"), w1)
       | None => patch (route_accession_id req) ""
                       (default "" (json_archivematica_id req)) w1
       end
  else (Raise (HTTPException 403 ""), w1).
Proof.
  intros H1 H2 Ha. unfold_view. rewrite H1, H2, Ha. cbn.
  destruct (permission_granted _ _); [|done].
  destruct (json_status req) as [s|]; [|done].
  by destruct (validate_status s).
Qed.



(** ** Validation of the status of a PATCH *)

(** C6. A PATCH whose [status] string makes [status_converter] raise is
    turned down: the view raises, and neither the session, nor the
    database, nor the dispatch log, nor the outbound requests change.
    When the request is authenticated, names a known accession and has
    the write permission, what is raised is the validation error of the
    [status] field. *)
Theorem patch_rejects_unrecognised_status (req : Request) (w : World)
    (s : string) (e : Exn) :
  json_status req = Some s ->
  status_converter s false = Raise e ->
  (exists e', fst (patch_view req w) = Raise e')
  /\ session (snd (patch_view req w)) = session w
  /\ database (snd (patch_view req w)) = database w
  /\ dispatched (snd (patch_view req w)) = dispatched w
  /\ requested (snd (patch_view req w)) = requested w
  /\ (forall a,
        require_api_auth req = None ->
        require_oauth_scopes req = None ->
        session w !! route_accession_id req = Some a ->
        permission_granted "archive-write" (accession_id a) = true ->
        fst (patch_view req w) = Raise (ValidationError "status")).
Proof.
  intros Hs He.
  assert (validate_status s = false) as Hv.
  { unfold validate_status. by rewrite He. }
  destruct (require_api_auth req) as [e1|] eqn:H1.
  { unfold_view. rewrite H1. cbn. split; [by eexists|]. by repeat split. }
  destruct (require_oauth_scopes req) as [e2|] eqn:H2.
  { unfold_view. rewrite H1, H2. cbn. split; [by eexists|]. by repeat split. }
  destruct (session w !! route_accession_id req) as [a|] eqn:Ha.
  - rewrite (patch_view_reaches _ _ _ H1 H2 Ha), Hs, Hv. cbn.
    destruct (permission_granted _ _) eqn:Hp; cbn;
      (split; [by eexists|]); repeat split; try done;
      intros a' _ _ [= <-] Hp'; congruence.
  - unfold_view. rewrite H1, H2, Ha. cbn. split; [by eexists|]. by repeat split.
Qed.

(** ** The session object behind [archive] *)

Lemma alter_lookup (f : Archive_ -> Archive_) (k : string)
    (m : gmap string Archive_) (a : Archive_) :
  m !! k = Some a -> alter f k m = <[k := f a]> m.
Proof.
  intros H. apply map_eq. intros j. destruct (decide (k = j)) as [<-|Hne].
  - by rewrite lookup_alter_eq, lookup_insert_eq, H.
  - by rewrite lookup_alter_ne, lookup_insert_ne.
Qed.

Ltac run :=
  rewrite ?bind_unfold;
  first [ erewrite attr_Some by (cbn [session]; eassumption)
        | erewrite to_json_Some by (cbn [session]; eassumption) ];
  cbv beta iota.

Lemma assign_archivematica_id_run (archive u : string) (a : Archive_)
    (w : World) :
  session w !! archive = Some a ->
  assign_archivematica_id archive u w =
  (Ok tt, mkWorld (<[archive := set_archivematica_id u a]> (session w))
                  (database w) (dispatched w) (requested w) (checked w)).
Proof.
  intros Ha. unfold assign_archivematica_id.
  by rewrite (alter_lookup _ _ _ _ Ha).
Qed.

(** The entry of [change_status_func] is called with the fields of the
    session object, and persists the status on that very object. *)
Lemma change_status_run (s : ArchiveStatus) (archive : string)
    (a : Archive_) (w : World) :
  session w !! archive = Some a ->
  accession_id a = archive ->
  change_status (Some s) archive w =
  (Ok tt,
   mkWorld (<[archive := set_status s a]> (session w))
           (<[archive := set_status s a]> (session w))
           (dispatched w
            ++ [mkDispatch s (sip_id a) (accession_id a) (archivematica_id a)])
           (requested w) (checked w)).
Proof.
  intros Ha Hacc. unfold change_status. do 3 run.
  unfold change_status_func. cbv zeta.
  by rewrite Hacc, (alter_lookup _ _ _ _ Ha).
Qed.

(** ** The ingest poll *)

Lemma get_ingest_fails (archive : string) (a : Archive_) (p : Params)
    (r : UpstreamResponse) (w : World) :
  session w !! archive = Some a ->
  network (ingest_status_url (archivematica_id a)) p = Answered r ->
  ok r = false ->
  get_ingest archive (Some p) w =
  (Ok (jsonify [] (up_status_code r)),
   mkWorld (session w) (database w) (dispatched w)
           (requested w
            ++ [mkOutbound (ingest_status_url (archivematica_id a)) p false])
           (checked w)).
Proof.
  intros Ha Hn Hok. unfold get_ingest. run. cbv zeta.
  rewrite bind_unfold. cbn [lift local].
  rewrite bind_unfold, (requests_get_answered _ _ _ _ _ Hn), Hok.
  reflexivity.
Qed.

Lemma get_ingest_same (archive : string) (a : Archive_) (p : Params)
    (r : UpstreamResponse) (s : string) (w : World) :
  session w !! archive = Some a ->
  network (ingest_status_url (archivematica_id a)) p = Answered r ->
  ok r = true ->
  json_item r "status" = Ok s ->
  status_converter s true = Ok (Some (status a)) ->
  get_ingest archive (Some p) w =
  (Ok (jsonify (to_json_obj a) 200),
   mkWorld (session w) (database w) (dispatched w)
           (requested w
            ++ [mkOutbound (ingest_status_url (archivematica_id a)) p false])
           (checked w)).
Proof.
  intros Ha Hn Hok Hj Hc. unfold get_ingest. run. cbv zeta.
  rewrite bind_unfold. cbn [lift local].
  rewrite bind_unfold, (requests_get_answered _ _ _ _ _ Hn), Hok.
  cbn [negb]. rewrite bind_unfold. unfold lift at 1. rewrite Hj.
  rewrite bind_unfold. unfold lift at 1. rewrite Hc.
  run. rewrite bool_decide_eq_false_2 by (intros H; by apply H).
  rewrite bind_unfold. cbn [mret M_ret ret].
  by erewrite to_json_Some by (cbn [session]; eassumption).
Qed.

Lemma get_ingest_changed (archive : string) (a : Archive_) (p : Params)
    (r : UpstreamResponse) (s : string) (S : ArchiveStatus) (w : World) :
  session w !! archive = Some a ->
  accession_id a = archive ->
  network (ingest_status_url (archivematica_id a)) p = Answered r ->
  ok r = true ->
  json_item r "status" = Ok s ->
  status_converter s true = Ok (Some S) ->
  S ≠ status a ->
  get_ingest archive (Some p) w =
  (Ok (jsonify (to_json_obj (set_status S a)) 200),
   mkWorld (<[archive := set_status S a]> (session w))
           (<[archive := set_status S a]> (session w))
           (dispatched w
            ++ [mkDispatch S (sip_id a) (accession_id a) (archivematica_id a)])
           (requested w
            ++ [mkOutbound (ingest_status_url (archivematica_id a)) p false])
           (checked w)).
Proof.
  intros Ha Hacc Hn Hok Hj Hc HS. unfold get_ingest. run. cbv zeta.
  rewrite bind_unfold. cbn [lift local].
  rewrite bind_unfold, (requests_get_answered _ _ _ _ _ Hn), Hok.
  cbn [negb]. rewrite bind_unfold. unfold lift at 1. rewrite Hj.
  rewrite bind_unfold. unfold lift at 1. rewrite Hc.
  run. rewrite bool_decide_eq_true_2 by congruence.
  rewrite bind_unfold.
  erewrite change_status_run by (cbn [session]; eassumption).
  cbn [session database dispatched requested checked].
  erewrite to_json_Some; [reflexivity|].
  cbn [session]. apply lookup_insert_eq.
Qed.

(** ** The transfer poll *)

Ltac poll_transfer Ha Hn :=
  unfold get_transfer; run; cbv zeta;
  rewrite bind_unfold, (requests_get_answered _ _ _ _ _ Hn).

Ltac convert Hj Hc :=
  rewrite bind_unfold; unfold lift at 1; rewrite Hj;
  rewrite bind_unfold; unfold lift at 1; rewrite Hc.

Lemma get_transfer_fails (archive : string) (a : Archive_)
    (r : UpstreamResponse) (w : World) :
  session w !! archive = Some a ->
  network (transfer_status_url (archivematica_id a)) dashboard_params
    = Answered r ->
  ok r = false ->
  get_transfer archive w =
  (Ok (Returned (jsonify [] (up_status_code r))),
   mkWorld (session w) (database w) (dispatched w)
           (requested w
            ++ [mkOutbound (transfer_status_url (archivematica_id a))
                           dashboard_params false])
           (checked w)).
Proof.
  intros Ha Hn Hok. poll_transfer Ha Hn. by rewrite Hok.
Qed.

Lemma get_transfer_same (archive : string) (a : Archive_)
    (r : UpstreamResponse) (s : string) (w : World) :
  session w !! archive = Some a ->
  status a ≠ REGISTERED ->
  network (transfer_status_url (archivematica_id a)) dashboard_params
    = Answered r ->
  ok r = true ->
  json_item r "status" = Ok s ->
  status_converter s false = Ok (Some (status a)) ->
  get_transfer archive w =
  (Ok (Returned (jsonify (to_json_obj a) 200)),
   mkWorld (session w) (database w) (dispatched w)
           (requested w
            ++ [mkOutbound (transfer_status_url (archivematica_id a))
                           dashboard_params false])
           (checked w)).
Proof.
  intros Ha Hnr Hn Hok Hj Hc. poll_transfer Ha Hn. rewrite Hok. cbn [negb].
  convert Hj Hc.
  rewrite bool_decide_eq_true_2 by congruence.
  run. rewrite bool_decide_eq_false_2 by (intros H; by apply H).
  rewrite bind_unfold. cbn [mret M_ret ret].
  rewrite bind_unfold.
  by erewrite to_json_Some by (cbn [session]; eassumption).
Qed.

Lemma get_transfer_changed (archive : string) (a : Archive_)
    (r : UpstreamResponse) (s : string) (S : ArchiveStatus) (w : World) :
  session w !! archive = Some a ->
  accession_id a = archive ->
  network (transfer_status_url (archivematica_id a)) dashboard_params
    = Answered r ->
  ok r = true ->
  json_item r "status" = Ok s ->
  status_converter s false = Ok (Some S) ->
  S ≠ REGISTERED ->
  S ≠ status a ->
  get_transfer archive w =
  (Ok (Returned (jsonify (to_json_obj (set_status S a)) 200)),
   mkWorld (<[archive := set_status S a]> (session w))
           (<[archive := set_status S a]> (session w))
           (dispatched w
            ++ [mkDispatch S (sip_id a) (accession_id a) (archivematica_id a)])
           (requested w
            ++ [mkOutbound (transfer_status_url (archivematica_id a))
                           dashboard_params false])
           (checked w)).
Proof.
  intros Ha Hacc Hn Hok Hj Hc HS1 HS2. poll_transfer Ha Hn.
  rewrite Hok. cbn [negb]. convert Hj Hc.
  rewrite bool_decide_eq_true_2 by congruence.
  run. rewrite bool_decide_eq_true_2 by congruence.
  rewrite bind_unfold.
  erewrite change_status_run by (cbn [session]; eassumption).
  cbn [session database dispatched requested checked].
  rewrite bind_unfold.
  erewrite to_json_Some; [reflexivity|].
  cbn [session]. apply lookup_insert_eq.
Qed.

(** The pivot: the transfer is complete, the archive takes the
    identifier of the package and enters PROCESSING_AIP, and control
    falls through to the ingest poll with [params] bound. *)
Lemma get_transfer_pivot (archive : string) (a : Archive_)
    (r : UpstreamResponse) (s P : string) (w : World) :
  session w !! archive = Some a ->
  accession_id a = archive ->
  network (transfer_status_url (archivematica_id a)) dashboard_params
    = Answered r ->
  ok r = true ->
  json_item r "status" = Ok s ->
  status_converter s false = Ok (Some REGISTERED) ->
  json_item r "sip_uuid" = Ok P ->
  get_transfer archive w =
  let pivoted := mkArchive (sip_id a) PROCESSING_AIP (accession_id a) P in
  (Ok (FallThrough (Some dashboard_params)),
   mkWorld (<[archive := pivoted]> (session w))
           (<[archive := pivoted]> (session w))
           (dispatched w
            ++ [mkDispatch PROCESSING_AIP (sip_id a) (accession_id a) P])
           (requested w
            ++ [mkOutbound (transfer_status_url (archivematica_id a))
                           dashboard_params false])
           (checked w)).
Proof.
  intros Ha Hacc Hn Hok Hj Hc Hp. poll_transfer Ha Hn.
  rewrite Hok. cbn [negb]. convert Hj Hc.
  rewrite bool_decide_eq_false_2 by (intros H; by apply H).
  rewrite bind_unfold. unfold lift at 1. rewrite Hp.
  rewrite bind_unfold.
  erewrite assign_archivematica_id_run by (cbn [session]; eassumption).
  rewrite bind_unfold.
  erewrite change_status_run;
    [| cbn [session]; apply lookup_insert_eq | exact Hacc].
  cbn [session database dispatched requested checked].
  rewrite insert_insert_eq. reflexivity.
Qed.

(** With a cached WAITING or PROCESSING_TRANSFER archive that has an
    identifier, a live query runs the transfer poll and continues with
    the ingest poll only if the transfer block falls through. *)
Lemma get_polls_transfer (archive : string) (a : Archive_) (w : World) :
  session w !! archive = Some a ->
  status a = WAITING \/ status a = PROCESSING_TRANSFER ->
  archivematica_id a ≠ "" ->
  get archive true w =
  match get_transfer archive w with
  | (Ok (Returned r), w') => (Ok r, w')
  | (Ok (FallThrough params), w') => get_ingest archive params w'
  | (Raise e, w') => (Raise e, w')
  end.
Proof.
  intros Ha Hs Hid. unfold get. step Ha. step Ha.
  rewrite get_skips_cheap_path;
    [| intros E; rewrite E in Hs; by destruct Hs ..| done].
  assert (bool_decide (status a = WAITING)
          || bool_decide (status a = PROCESSING_TRANSFER) = true) as ->.
  { by destruct Hs as [-> | ->]. }
  rewrite bind_unfold.
  destruct (get_transfer archive w) as [[[r|params]|e] w']; reflexivity.
Qed.

(** ** [Archive.patch], step by step *)

(** The first statement of [patch]: a non-empty identifier that differs
    from the current one is assigned. *)
Lemma patch_run (w : World) (archive : string) (a : Archive_)
    (st amid : string) :
  session w !! archive = Some a ->
  accession_id a = archive ->
  let a1 := if truthy amid && negb (String.eqb amid (archivematica_id a))
            then set_archivematica_id amid a else a in
  let sess1 := <[archive := a1]> (session w) in
  patch archive st amid w =
  match status_converter st false with
  | Raise e =>
      (Raise e, mkWorld sess1 sess1 (dispatched w) (requested w) (checked w))
  | Ok None =>
      (Ok (jsonify (to_json_obj a1) 200),
       mkWorld sess1 sess1 (dispatched w) (requested w) (checked w))
  | Ok (Some s) =>
      if decide (s = status a1)
      then (Ok (jsonify (to_json_obj a1) 200),
            mkWorld sess1 sess1 (dispatched w) (requested w) (checked w))
      else (Ok (jsonify (to_json_obj (set_status s a1)) 200),
            mkWorld (<[archive := set_status s a1]> (session w))
                    (<[archive := set_status s a1]> (session w))
                    (dispatched w
                     ++ [mkDispatch s (sip_id a1) (accession_id a1)
                                    (archivematica_id a1)])
                    (requested w) (checked w))
  end.
Proof.
  intros Ha Hacc a1 sess1. unfold patch.
  rewrite bind_unfold.
  assert ((if truthy amid
           then cur ← attr archivematica_id archive;
                (if negb (String.eqb amid cur)
                 then assign_archivematica_id archive amid else mret ())
           else mret ()) w
          = (Ok (), mkWorld sess1 (database w) (dispatched w) (requested w)
                            (checked w))) as ->.
  { subst sess1 a1. destruct (truthy amid); cbn [andb].
    - run. destruct (negb _).
      + by apply assign_archivematica_id_run.
      + rewrite (insert_id _ _ _ Ha). by destruct w.
    - rewrite (insert_id _ _ _ Ha). by destruct w. }
  assert (sess1 !! archive = Some a1) as Ha1 by apply lookup_insert_eq.
  assert (accession_id a1 = archive) as Hacc1.
  { subst a1. by destruct (_ && _). }
  rewrite bind_unfold. unfold commit at 1.
  cbn [session database dispatched requested checked].
  rewrite bind_unfold. unfold lift at 1.
  destruct (status_converter st false) as [[s|]|e]; [| |reflexivity].
  - rewrite !bind_unfold.
    erewrite attr_Some by (cbn [session]; exact Ha1). cbv beta iota.
    destruct (decide (s = status a1)) as [Heq|Hne].
    + rewrite bool_decide_eq_false_2 by (intros H; by apply H).
      cbn [mret M_ret ret].
      by erewrite to_json_Some by (cbn [session]; exact Ha1).
    + rewrite bool_decide_eq_true_2 by done.
      erewrite change_status_run; [| cbn [session]; exact Ha1 | exact Hacc1].
      cbn [session database dispatched requested checked].
      subst sess1. rewrite insert_insert_eq.
      erewrite to_json_Some; [reflexivity|].
      cbn [session]. apply lookup_insert_eq.
  - rewrite bind_unfold. cbn [mret M_ret ret].
    by erewrite to_json_Some by (cbn [session]; exact Ha1).
Qed.

(** ** Reconciliation: properties of a live [Archive.get] *)



(** C3, as the code has it.  A poll answered with a non-success code
    is relayed as that code with an empty JSON object, and the failed
    poll changes nothing.  When it is the transfer poll, the record is
    the cached one and nothing was dispatched.  When it is the ingest
    poll that follows a pivot, the record is the pivoted one
    (PROCESSING_AIP, with the identifier of the package) and the one
    call through [change_status_func] is that of the pivot. *)
Theorem get_relays_failed_poll (w : World) (archive : string)
    (a : Archive_) (r1 : UpstreamResponse) :
  session w !! archive = Some a ->
  status a = WAITING \/ status a = PROCESSING_TRANSFER ->
  archivematica_id a ≠ "" ->
  network (transfer_status_url (archivematica_id a)) dashboard_params
    = Answered r1 ->
  (ok r1 = false ->
   get archive true w =
   (Ok (jsonify [] (up_status_code r1)),
    mkWorld (session w) (database w) (dispatched w)
            (requested w
             ++ [mkOutbound (transfer_status_url (archivematica_id a))
                            dashboard_params false])
            (checked w)))
  /\ (forall (s P : string) (r2 : UpstreamResponse),
      accession_id a = archive ->
      ok r1 = true ->
      json_item r1 "status" = Ok s ->
      status_converter s false = Ok (Some REGISTERED) ->
      json_item r1 "sip_uuid" = Ok P ->
      network (ingest_status_url P) dashboard_params = Answered r2 ->
      ok r2 = false ->
      let pivoted := mkArchive (sip_id a) PROCESSING_AIP (accession_id a) P in
      get archive true w =
      (Ok (jsonify [] (up_status_code r2)),
       mkWorld (<[archive := pivoted]> (session w))
               (<[archive := pivoted]> (session w))
               (dispatched w
                ++ [mkDispatch PROCESSING_AIP (sip_id a) (accession_id a) P])
               (requested w
                ++ [mkOutbound (transfer_status_url (archivematica_id a))
                               dashboard_params false;
                    mkOutbound (ingest_status_url P) dashboard_params false])
               (checked w))).
Proof.
  intros Ha Hs Hid Hn1. split.
  - intros Hok1. rewrite (get_polls_transfer _ _ _ Ha Hs Hid).
    by rewrite (get_transfer_fails _ _ _ _ Ha Hn1 Hok1).
  - intros s P r2 Hacc Hok1 Hj Hc Hp Hn2 Hok2 pivoted.
    rewrite (get_polls_transfer _ _ _ Ha Hs Hid).
    rewrite (get_transfer_pivot _ _ _ _ _ _ Ha Hacc Hn1 Hok1 Hj Hc Hp).
    cbv beta iota zeta. fold pivoted.
    erewrite get_ingest_fails with (a := pivoted) (r := r2);
      [| cbn [session]; apply lookup_insert_eq | done ..].
    cbn [session database dispatched requested checked].
    by rewrite <- app_assoc.
Qed.

(** ** The write path *)

Lemma patch_identifier_settles (amid : string) (a : Archive_) :
  let a1 := if truthy amid && negb (String.eqb amid (archivematica_id a))
            then set_archivematica_id amid a else a in
  forall a2 : Archive_,
    archivematica_id a2 = archivematica_id a1 ->
    (if truthy amid && negb (String.eqb amid (archivematica_id a2))
     then set_archivematica_id amid a2 else a2) = a2.
Proof.
  intros a1 a2 ->. subst a1.
  destruct (truthy amid && negb (String.eqb amid (archivematica_id a)))
    eqn:E; [|by rewrite E].
  cbn [archivematica_id set_archivematica_id].
  by rewrite String.eqb_refl, andb_false_r.
Qed.

(** C7. A PATCH that carries the status and the identifier the record
    already holds calls no entry of [change_status_func] and leaves the
    session as it is.  Hence PATCH is idempotent: run a second time
    with the same arguments, right after the first, it gives the same
    answer and does not change the world the first one left; nothing
    more is dispatched and the record stays as it is. *)
Theorem patch_is_idempotent (w : World) (archive : string) (a : Archive_)
    (st amid : string) :
  session w !! archive = Some a ->
  accession_id a = archive ->
  (status_converter st false = Ok (Some (status a)) ->
   amid = archivematica_id a ->
   fst (patch archive st amid w) = Ok (jsonify (to_json_obj a) 200)
   /\ session (snd (patch archive st amid w)) = session w
   /\ dispatched (snd (patch archive st amid w)) = dispatched w)
  /\ patch archive st amid (snd (patch archive st amid w))
     = (fst (patch archive st amid w), snd (patch archive st amid w)).
Proof.
  intros Ha Hacc. split.
  - intros Hc ->. rewrite (patch_run _ _ _ _ _ Ha Hacc). cbv zeta.
    rewrite String.eqb_refl, andb_false_r, Hc.
    rewrite decide_True by done. cbn.
    by rewrite (insert_id _ _ _ Ha).
  - pose proof (patch_identifier_settles amid a) as Hsettle. cbv zeta in Hsettle.
    rewrite (patch_run _ _ _ _ _ Ha Hacc). cbv zeta.
    set (a1 := if truthy amid && negb (String.eqb amid (archivematica_id a))
               then set_archivematica_id amid a else a) in *.
    assert (accession_id a1 = archive) as Hacc1.
    { subst a1. by destruct (_ && _). }
    destruct (status_converter st false) as [[s|]|e] eqn:Hc;
      [destruct (decide (s = status a1)) as [Hs|Hs]| |];
      cbn [fst snd].
    + erewrite patch_run with (a := a1);
        [| cbn [session]; apply lookup_insert_eq | exact Hacc1].
      cbv zeta. rewrite (Hsettle a1 eq_refl), Hc, decide_True by done.
      cbn [session dispatched requested checked].
      by rewrite insert_insert_eq.
    + erewrite patch_run with (a := set_status s a1);
        [| cbn [session]; apply lookup_insert_eq | exact Hacc1].
      cbv zeta. rewrite (Hsettle (set_status s a1) eq_refl), Hc.
      rewrite decide_True by done.
      cbn [session dispatched requested checked].
      by rewrite insert_insert_eq.
    + erewrite patch_run with (a := a1);
        [| cbn [session]; apply lookup_insert_eq | exact Hacc1].
      cbv zeta. rewrite (Hsettle a1 eq_refl), Hc.
      cbn [session dispatched requested checked].
      by rewrite insert_insert_eq.
    + erewrite patch_run with (a := a1);
        [| cbn [session]; apply lookup_insert_eq | exact Hacc1].
      cbv zeta. rewrite (Hsettle a1 eq_refl), Hc.
      cbn [session dispatched requested checked].
      by rewrite insert_insert_eq.
Qed.


(** ** Permissions *)


(** ** The polls, case by case *)

Lemma requests_get_unreachable (url : string) (p : Params) (stream : bool)
    (w : World) :
  network url p = Unreachable ->
  requests_get url p stream w =
  (Raise ConnectionError,
   mkWorld (session w) (database w) (dispatched w)
           (requested w ++ [mkOutbound url p stream]) (checked w)).
Proof. intros H. unfold requests_get. by rewrite H. Qed.

(** Whatever the Archival Service does, the ingest poll comes down to one
    of these outcomes. *)
Lemma get_ingest_run (w : World) (archive : string) (a : Archive_)
    (p : Params) :
  session w !! archive = Some a ->
  accession_id a = archive ->
  get_ingest archive (Some p) w =
  let w1 := mkWorld (session w) (database w) (dispatched w)
              (requested w
               ++ [mkOutbound (ingest_status_url (archivematica_id a)) p false])
              (checked w) in
  match network (ingest_status_url (archivematica_id a)) p with
  | Unreachable => (Raise ConnectionError, w1)
  | Answered r =>
      if ok r then
        match json_item r "status" with
        | Raise e => (Raise e, w1)
        | Ok s =>
            match status_converter s true with
            | Raise e => (Raise e, w1)
            | Ok None => (Raise (KeyError "None"), w1)
            | Ok (Some t) =>
                if decide (t = status a)
                then (Ok (jsonify (to_json_obj a) 200), w1)
                else (Ok (jsonify (to_json_obj (set_status t a)) 200),
                      mkWorld (<[archive := set_status t a]> (session w))
                              (<[archive := set_status t a]> (session w))
                              (dispatched w
                               ++ [mkDispatch t (sip_id a) (accession_id a)
                                              (archivematica_id a)])
                              (requested w1) (checked w))
            end
        end
      else (Ok (jsonify [] (up_status_code r)), w1)
  end.
Proof.
  intros Ha Hacc. cbv zeta.
  destruct (network _ p) as [r|] eqn:Hn.
  - destruct (ok r) eqn:Hok; [|by eapply get_ingest_fails].
    destruct (json_item r "status") as [s|e] eqn:Hj.
    + destruct (status_converter s true) as [[t|]|e] eqn:Hc.
      * destruct (decide (t = status a)) as [->|HS].
        -- by eapply get_ingest_same.
        -- by eapply get_ingest_changed.
      * unfold get_ingest. run. cbv zeta. rewrite bind_unfold. cbn [lift local].
        rewrite bind_unfold, (requests_get_answered _ _ _ _ _ Hn), Hok.
        cbn [negb]. convert Hj Hc. run.
        rewrite bool_decide_eq_true_2 by done. reflexivity.
      * unfold get_ingest. run. cbv zeta. rewrite bind_unfold. cbn [lift local].
        rewrite bind_unfold, (requests_get_answered _ _ _ _ _ Hn), Hok.
        cbn [negb]. convert Hj Hc. reflexivity.
    + unfold get_ingest. run. cbv zeta. rewrite bind_unfold. cbn [lift local].
      rewrite bind_unfold, (requests_get_answered _ _ _ _ _ Hn), Hok.
      cbn [negb]. rewrite bind_unfold. unfold lift at 1. by rewrite Hj.
  - unfold get_ingest. run. cbv zeta. rewrite bind_unfold. cbn [lift local].
    by rewrite bind_unfold, (requests_get_unreachable _ _ _ _ Hn).
Qed.

(** The same for the transfer poll. *)
Lemma get_transfer_run (w : World) (archive : string) (a : Archive_) :
  session w !! archive = Some a ->
  accession_id a = archive ->
  status a ≠ REGISTERED ->
  get_transfer archive w =
  let w1 := mkWorld (session w) (database w) (dispatched w)
              (requested w
               ++ [mkOutbound (transfer_status_url (archivematica_id a))
                              dashboard_params false])
              (checked w) in
  match network (transfer_status_url (archivematica_id a)) dashboard_params with
  | Unreachable => (Raise ConnectionError, w1)
  | Answered r =>
      if ok r then
        match json_item r "status" with
        | Raise e => (Raise e, w1)
        | Ok s =>
            match status_converter s false with
            | Raise e => (Raise e, w1)
            | Ok None => (Raise (KeyError "None"), w1)
            | Ok (Some t) =>
                if decide (t = REGISTERED) then
                  match json_item r "sip_uuid" with
                  | Raise e => (Raise e, w1)
                  | Ok P =>
                      let pivoted := mkArchive (sip_id a) PROCESSING_AIP
                                               (accession_id a) P in
                      (Ok (FallThrough (Some dashboard_params)),
                       mkWorld (<[archive := pivoted]> (session w))
                               (<[archive := pivoted]> (session w))
                               (dispatched w
                                ++ [mkDispatch PROCESSING_AIP (sip_id a)
                                               (accession_id a) P])
                               (requested w1) (checked w))
                  end
                else if decide (t = status a)
                then (Ok (Returned (jsonify (to_json_obj a) 200)), w1)
                else (Ok (Returned (jsonify (to_json_obj (set_status t a)) 200)),
                      mkWorld (<[archive := set_status t a]> (session w))
                              (<[archive := set_status t a]> (session w))
                              (dispatched w
                               ++ [mkDispatch t (sip_id a) (accession_id a)
                                              (archivematica_id a)])
                              (requested w1) (checked w))
            end
        end
      else (Ok (Returned (jsonify [] (up_status_code r))), w1)
  end.
Proof.
  intros Ha Hacc Hreg. cbv zeta.
  destruct (network _ dashboard_params) as [r|] eqn:Hn.
  - destruct (ok r) eqn:Hok; [|by eapply get_transfer_fails].
    destruct (json_item r "status") as [s|e] eqn:Hj.
    + destruct (status_converter s false) as [[t|]|e] eqn:Hc.
      * destruct (decide (t = REGISTERED)) as [->|HS].
        -- destruct (json_item r "sip_uuid") as [P|e] eqn:Hp.
           ++ by eapply get_transfer_pivot.
           ++ poll_transfer Ha Hn. rewrite Hok. cbn [negb]. convert Hj Hc.
              rewrite bool_decide_eq_false_2 by (intros H; by apply H).
              rewrite bind_unfold. unfold lift at 1. by rewrite Hp.
        -- destruct (decide (t = status a)) as [->|HS'].
           ++ by eapply get_transfer_same.
           ++ by eapply get_transfer_changed.
      * poll_transfer Ha Hn. rewrite Hok. cbn [negb]. convert Hj Hc.
        rewrite bool_decide_eq_true_2 by done. run.
        rewrite bool_decide_eq_true_2 by done. reflexivity.
      * poll_transfer Ha Hn. rewrite Hok. cbn [negb]. by convert Hj Hc.
    + poll_transfer Ha Hn. rewrite Hok. cbn [negb].
      rewrite bind_unfold. unfold lift at 1. by rewrite Hj.
  - unfold get_transfer. run. cbv zeta.
    by rewrite bind_unfold, (requests_get_unreachable _ _ _ _ Hn).
Qed.

(** The three ways through a live [Archive.get]. *)
Lemma get_run (w : World) (archive : string) (a : Archive_)
    (real_status : bool) :
  session w !! archive = Some a ->
  get archive real_status w =
  if negb real_status || bool_decide (status a = FAILED)
     || bool_decide (status a = NEW) || negb (truthy (archivematica_id a))
  then (Ok (jsonify (to_json_obj a) 200), w)
  else if bool_decide (status a = WAITING)
          || bool_decide (status a = PROCESSING_TRANSFER)
  then match get_transfer archive w with
       | (Ok (Returned r), w') => (Ok r, w')
       | (Ok (FallThrough params), w') => get_ingest archive params w'
       | (Raise e, w') => (Raise e, w')
       end
  else (Raise (UnboundLocalError "params"), w).
Proof.
  intros Ha. unfold get. step Ha. step Ha.
  destruct (_ || _ || _ || _); [by apply to_json_Some|].
  destruct (_ || _); rewrite bind_unfold.
  - destruct (get_transfer archive w) as [[[r|params]|e] w']; reflexivity.
  - cbn [mret M_ret ret]. unfold get_ingest. step Ha. reflexivity.
Qed.

Lemma polled_status_not_registered (a : Archive_) :
  bool_decide (status a = WAITING)
  || bool_decide (status a = PROCESSING_TRANSFER) = true ->
  status a ≠ REGISTERED.
Proof. intros H E. rewrite E in H. discriminate H. Qed.

Lemma not_ok_code (r : UpstreamResponse) :
  ok r = false -> 400 <= up_status_code r < 600.
Proof.
  unfold ok. rewrite negb_false_iff, andb_true_iff, Z.leb_le, Z.ltb_lt. lia.
Qed.

(** Splitting a call of [Archive.get] into its outcomes: the cached
    answer, the unbound [params], and every way the two polls can go. *)
Ltac split_poll Hacc :=
  match goal with
  | |- context [match network ?u ?p with _ => _ end] =>
      destruct (network u p)
  | |- context [if ok ?x then _ else _] => destruct (ok x) eqn:?
  | |- context [match json_item ?r ?k with _ => _ end] =>
      destruct (json_item r k)
  | |- context [match status_converter ?s ?b with _ => _ end] =>
      destruct (status_converter s b) as [[?|]|?]
  | |- context [if decide ?P then _ else _] => destruct (decide P)
  | |- context [get_ingest _ (Some _) _] =>
      erewrite get_ingest_run;
      [ | cbn [session]; apply lookup_insert_eq | exact Hacc ];
      cbv zeta; cbn [archivematica_id status sip_id accession_id]
  end.

Ltac split_get Ha Hacc :=
  rewrite (get_run _ _ _ _ Ha);
  destruct (_ || _ || _ || _);
  [ | let Hst := fresh "Hst" in
      destruct (_ || _) eqn:Hst;
      [ rewrite (get_transfer_run _ _ _ Ha Hacc
                   (polled_status_not_registered _ Hst));
        cbv zeta; repeat split_poll Hacc
      | ] ];
  cbn [fst snd session database dispatched requested checked].

(** ** What a live query asks the Archival Service *)

(** X8. A call of [Archive.get] sends no request, or one to the
    transfer-status endpoint of the cached identifier, or that one
    followed by one to the ingest-status endpoint; both carry the
    dashboard credentials.  The ingest endpoint is never asked first. *)
Theorem get_polls_transfer_before_ingest (w : World) (archive : string)
    (a : Archive_) (real_status : bool) :
  session w !! archive = Some a ->
  accession_id a = archive ->
  let T := mkOutbound (transfer_status_url (archivematica_id a))
                      dashboard_params false in
  let rs := requested (snd (get archive real_status w)) in
  rs = requested w
  \/ rs = (requested w ++ [T])%list
  \/ exists P, rs = (requested w
                     ++ [T; mkOutbound (ingest_status_url P)
                                       dashboard_params false])%list.
Proof.
  intros Ha Hacc T rs. subst T rs.
  split_get Ha Hacc; rewrite <- ?app_assoc; eauto.
Qed.


(** X10. A call of [Archive.get] touches no other record than the one it was
    given, keeps the SIP and the accession of that record, and goes
    through [change_status_func] at most twice, each time for that SIP
    and that accession. *)
Theorem get_touches_one_record (w : World) (archive : string)
    (a : Archive_) (real_status : bool) :
  session w !! archive = Some a ->
  accession_id a = archive ->
  (forall k, k ≠ archive ->
     session (snd (get archive real_status w)) !! k = session w !! k)
  /\ (exists a', session (snd (get archive real_status w)) !! archive = Some a'
                 /\ sip_id a' = sip_id a
                 /\ accession_id a' = accession_id a)
  /\ (exists ds, dispatched (snd (get archive real_status w))
                 = (dispatched w ++ ds)%list
                 /\ (List.length ds <= 2)%nat
                 /\ Forall (fun d => d_sip d = sip_id a
                                     /\ d_accession_id d = accession_id a) ds).
Proof.
  intros Ha Hacc. split_get Ha Hacc; rewrite <- ?app_assoc;
    (split; [intros k Hk; by rewrite ?lookup_insert_ne by done|]);
    (split; [eexists; split;
             [first [exact Ha | apply lookup_insert_eq] | done]|]);
    first [ exists []; split; [by rewrite app_nil_r|]
          | eexists; split; [reflexivity|] ];
    (split; [cbn; lia | by repeat constructor]).
Qed.

(** ** More on the polls *)

(** X5. A transfer poll that reports a status other than REGISTERED and
    other than the cached one goes through [change_status_func] once,
    with the cached identifier, answers with the updated snapshot, and
    stops there: the ingest endpoint is not asked. *)
Theorem get_follows_transfer_status (w : World) (archive : string)
    (a : Archive_) (r : UpstreamResponse) (s : string) (t : ArchiveStatus) :
  session w !! archive = Some a ->
  accession_id a = archive ->
  status a = WAITING \/ status a = PROCESSING_TRANSFER ->
  archivematica_id a ≠ "" ->
  network (transfer_status_url (archivematica_id a)) dashboard_params
    = Answered r ->
  ok r = true ->
  json_item r "status" = Ok s ->
  status_converter s false = Ok (Some t) ->
  t ≠ REGISTERED ->
  t ≠ status a ->
  get archive true w =
  (Ok (jsonify (to_json_obj (set_status t a)) 200),
   mkWorld (<[archive := set_status t a]> (session w))
           (<[archive := set_status t a]> (session w))
           (dispatched w
            ++ [mkDispatch t (sip_id a) (accession_id a) (archivematica_id a)])
           (requested w
            ++ [mkOutbound (transfer_status_url (archivematica_id a))
                           dashboard_params false])
           (checked w)).
Proof.
  intros Ha Hacc Hs Hid Hn Hok Hj Hc Ht1 Ht2.
  rewrite (get_polls_transfer _ _ _ Ha Hs Hid).
  by rewrite (get_transfer_changed _ _ _ _ _ _ Ha Hacc Hn Hok Hj Hc Ht1 Ht2).
Qed.

(** X6. An Archival Service that cannot be reached is not handled by
    [Archive.get]: the [ConnectionError] of [requests.get] leaves the
    handler.  On the transfer poll the record is untouched; on the
    ingest poll after a pivot the pivot stays. *)
Theorem get_lets_connection_error_through (w : World) (archive : string)
    (a : Archive_) :
  session w !! archive = Some a ->
  accession_id a = archive ->
  status a = WAITING \/ status a = PROCESSING_TRANSFER ->
  archivematica_id a ≠ "" ->
  (network (transfer_status_url (archivematica_id a)) dashboard_params
     = Unreachable ->
   get archive true w =
   (Raise ConnectionError,
    mkWorld (session w) (database w) (dispatched w)
            (requested w
             ++ [mkOutbound (transfer_status_url (archivematica_id a))
                            dashboard_params false])
            (checked w)))
  /\ (forall (r : UpstreamResponse) (s P : string),
        network (transfer_status_url (archivematica_id a)) dashboard_params
          = Answered r ->
        ok r = true ->
        json_item r "status" = Ok s ->
        status_converter s false = Ok (Some REGISTERED) ->
        json_item r "sip_uuid" = Ok P ->
        network (ingest_status_url P) dashboard_params = Unreachable ->
        fst (get archive true w) = Raise ConnectionError
        /\ session (snd (get archive true w)) !! archive
           = Some (mkArchive (sip_id a) PROCESSING_AIP (accession_id a) P)
        /\ dispatched (snd (get archive true w))
           = (dispatched w
              ++ [mkDispatch PROCESSING_AIP (sip_id a) (accession_id a) P])%list).
Proof.
  intros Ha Hacc Hs Hid.
  assert (status a ≠ REGISTERED) as Hreg.
  { intros E. rewrite E in Hs. by destruct Hs. }
  rewrite (get_polls_transfer _ _ _ Ha Hs Hid).
  rewrite (get_transfer_run _ _ _ Ha Hacc Hreg). cbv zeta. split.
  - by intros ->.
  - intros r s P -> -> -> -> Hp. rewrite decide_True, Hp by done.
    intros Hn. erewrite get_ingest_run;
      [| cbn [session]; apply lookup_insert_eq | exact Hacc].
    cbv zeta. cbn [archivematica_id]. rewrite Hn. cbn.
    by rewrite lookup_insert_eq.
Qed.

(** X7. A transfer answer that cannot be read raises and changes nothing:
    a body without [status], a status that [status_converter] rejects,
    or a completed transfer without [sip_uuid] (the identifier is only
    assigned once [sip_uuid] has been read). *)
Theorem get_rejects_unreadable_transfer_answer (w : World) (archive : string)
    (a : Archive_) (r : UpstreamResponse) (e : Exn) :
  session w !! archive = Some a ->
  accession_id a = archive ->
  status a = WAITING \/ status a = PROCESSING_TRANSFER ->
  archivematica_id a ≠ "" ->
  network (transfer_status_url (archivematica_id a)) dashboard_params
    = Answered r ->
  ok r = true ->
  json_item r "status" = Raise e
  \/ (exists s, json_item r "status" = Ok s
                /\ (status_converter s false = Raise e
                    \/ (status_converter s false = Ok (Some REGISTERED)
                        /\ json_item r "sip_uuid" = Raise e))) ->
  get archive true w =
  (Raise e,
   mkWorld (session w) (database w) (dispatched w)
           (requested w
            ++ [mkOutbound (transfer_status_url (archivematica_id a))
                           dashboard_params false])
           (checked w)).
Proof.
  intros Ha Hacc Hs Hid Hn Hok Hbad.
  assert (status a ≠ REGISTERED) as Hreg.
  { intros E. rewrite E in Hs. by destruct Hs. }
  rewrite (get_polls_transfer _ _ _ Ha Hs Hid).
  rewrite (get_transfer_run _ _ _ Ha Hacc Hreg). cbv zeta.
  rewrite Hn, Hok.
  destruct Hbad as [-> | (s & -> & [-> | [-> Hp]])]; [done..|].
  by rewrite decide_True, Hp.
Qed.

(** ** More on the write path *)

(** X12. [Archive.patch] asks nothing of the Archival Service and touches no
    other record.  On its own record it keeps the SIP and the accession,
    and the identifier it leaves is the one sent if that is non-empty
    and the old one otherwise: a PATCH cannot clear an identifier. *)
Theorem patch_touches_one_record (w : World) (archive : string)
    (a : Archive_) (st amid : string) :
  session w !! archive = Some a ->
  accession_id a = archive ->
  requested (snd (patch archive st amid w)) = requested w
  /\ (forall k, k ≠ archive ->
        session (snd (patch archive st amid w)) !! k = session w !! k)
  /\ (exists a', session (snd (patch archive st amid w)) !! archive = Some a'
                 /\ sip_id a' = sip_id a
                 /\ accession_id a' = accession_id a
                 /\ archivematica_id a'
                    = (if truthy amid then amid else archivematica_id a)).
Proof.
  intros Ha Hacc. rewrite (patch_run _ _ _ _ _ Ha Hacc). cbv zeta.
  assert (archivematica_id
            (if truthy amid && negb (String.eqb amid (archivematica_id a))
             then set_archivematica_id amid a else a)
          = (if truthy amid then amid else archivematica_id a)
          /\ sip_id (if truthy amid && negb (String.eqb amid (archivematica_id a))
                     then set_archivematica_id amid a else a) = sip_id a
          /\ accession_id
               (if truthy amid && negb (String.eqb amid (archivematica_id a))
                then set_archivematica_id amid a else a) = accession_id a)
    as (Hid & Hsip & Hac).
  { destruct (truthy amid); [|done].
    destruct (String.eqb amid (archivematica_id a)) eqn:E; [|done].
    by apply String.eqb_eq in E. }
  destruct (status_converter st false) as [[t|]|e];
    [destruct (decide _)| |];
    cbn [fst snd session requested];
    (split; [done|]);
    (split; [intros k Hk; by rewrite lookup_insert_ne by done|]);
    eexists; (split; [apply lookup_insert_eq|]); done.
Qed.

(** X13. A PATCH whose status converts to one the record does not hold goes
    through [change_status_func] exactly once, with the identifier the
    record has after the first statement of the handler, and answers
    with the snapshot in the new status. *)
Theorem patch_dispatches_new_status (w : World) (archive : string)
    (a : Archive_) (st amid : string) (t : ArchiveStatus) :
  session w !! archive = Some a ->
  accession_id a = archive ->
  status_converter st false = Ok (Some t) ->
  t ≠ status a ->
  let uuid := if truthy amid then amid else archivematica_id a in
  let a' := mkArchive (sip_id a) t (accession_id a) uuid in
  fst (patch archive st amid w) = Ok (jsonify (to_json_obj a') 200)
  /\ session (snd (patch archive st amid w)) !! archive = Some a'
  /\ dispatched (snd (patch archive st amid w))
     = (dispatched w
        ++ [mkDispatch t (sip_id a) (accession_id a) uuid])%list.
Proof.
  intros Ha Hacc Hc Ht uuid a'. rewrite (patch_run _ _ _ _ _ Ha Hacc).
  cbv zeta. rewrite Hc.
  assert ((if truthy amid && negb (String.eqb amid (archivematica_id a))
           then set_archivematica_id amid a else a)
          = mkArchive (sip_id a) (status a) (accession_id a) uuid) as ->.
  { subst uuid. destruct (truthy amid); [|by destruct a].
    destruct (String.eqb amid (archivematica_id a)) eqn:E; [|done].
    apply String.eqb_eq in E. rewrite E. by destruct a. }
  rewrite decide_False by done. cbn. by rewrite lookup_insert_eq.
Qed.

(** X14. A status that passed [validate_status] never makes the handler fail:
    the PATCH answers 200 with the snapshot of the record as it leaves
    it, after at most one call through [change_status_func]. *)
Theorem patch_answers_validated_status (w : World) (archive : string)
    (a : Archive_) (st amid : string) :
  session w !! archive = Some a ->
  accession_id a = archive ->
  validate_status st = true ->
  exists a',
    session (snd (patch archive st amid w)) !! archive = Some a'
    /\ fst (patch archive st amid w) = Ok (jsonify (to_json_obj a') 200)
    /\ (List.length (dispatched (snd (patch archive st amid w)))
        <= List.length (dispatched w) + 1)%nat.
Proof.
  intros Ha Hacc Hv. rewrite (patch_run _ _ _ _ _ Ha Hacc). cbv zeta.
  unfold validate_status in Hv.
  destruct (status_converter st false) as [[t|]|e]; [| |done];
    [destruct (decide _)|];
    cbn [fst snd session dispatched]; eexists;
    (split; [apply lookup_insert_eq|]);
    (split; [done|]); rewrite ?length_app; cbn; lia.
Qed.

(** X15. The identifier is committed before the status is converted: when
    [status_converter] raises inside the handler, the PATCH fails, but
    a new identifier is already in the database. *)
Theorem patch_commits_before_conversion (w : World) (archive : string)
    (a : Archive_) (st amid : string) (e : Exn) :
  session w !! archive = Some a ->
  accession_id a = archive ->
  status_converter st false = Raise e ->
  amid ≠ "" ->
  fst (patch archive st amid w) = Raise e
  /\ database (snd (patch archive st amid w)) !! archive
     = Some (set_archivematica_id amid a)
  /\ dispatched (snd (patch archive st amid w)) = dispatched w.
Proof.
  intros Ha Hacc Hc Hne. rewrite (patch_run _ _ _ _ _ Ha Hacc). cbv zeta.
  rewrite Hc. cbn [fst snd database dispatched].
  split; [done|]. split; [|done]. rewrite lookup_insert_eq. f_equal.
  apply truthy_true in Hne. rewrite Hne. cbn [andb].
  destruct (String.eqb amid (archivematica_id a)) eqn:E; [|done].
  apply String.eqb_eq in E. rewrite E. by destruct a.
Qed.

(** ** More on the download *)

(** X17. When the storage service cannot be reached, the download is answered
    520; the [ConnectionError] does not leave the handler. *)
Theorem download_answers_520_when_unreachable (w : World) (archive : string)
    (a : Archive_) :
  session w !! archive = Some a ->
  status a = REGISTERED ->
  archivematica_id a ≠ "" ->
  network (download_url (archivematica_id a)) storage_params = Unreachable ->
  download archive w =
  (Ok (make_response "Connection problem with Archivematica" 520),
   mkWorld (session w) (database w) (dispatched w)
           (requested w
            ++ [mkOutbound (download_url (archivematica_id a))
                           storage_params true])
           (checked w)).
Proof.
  intros Ha Hs Hid Hn. unfold download. step Ha. step Ha.
  rewrite (bool_decide_eq_true_2 _ Hs).
  apply truthy_true in Hid. rewrite Hid. cbn [negb orb].
  unfold try_except_ConnectionError. step Ha. cbv zeta.
  by rewrite bind_unfold, (requests_get_unreachable _ _ _ _ Hn).
Qed.

(** X18. A non-success answer of the storage service is relayed: same code,
    which is a 4xx or a 5xx, and an empty body. *)
Theorem download_relays_upstream_error (w : World) (archive : string)
    (a : Archive_) (r : UpstreamResponse) :
  session w !! archive = Some a ->
  status a = REGISTERED ->
  archivematica_id a ≠ "" ->
  network (download_url (archivematica_id a)) storage_params = Answered r ->
  ok r = false ->
  download archive w =
  (Ok (make_response "" (up_status_code r)),
   mkWorld (session w) (database w) (dispatched w)
           (requested w
            ++ [mkOutbound (download_url (archivematica_id a))
                           storage_params true])
           (checked w))
  /\ 400 <= up_status_code r < 600.
Proof.
  intros Ha Hs Hid Hn Hok. split; [|by apply not_ok_code].
  unfold download. step Ha. step Ha.
  rewrite (bool_decide_eq_true_2 _ Hs).
  apply truthy_true in Hid. rewrite Hid. cbn [negb orb].
  unfold try_except_ConnectionError. step Ha. cbv zeta.
  by rewrite bind_unfold, (requests_get_answered _ _ _ _ _ Hn), Hok.
Qed.


(** ** More on the decorators *)

(** X1. An unknown accession is answered 404 by the three views, with the
    accession in the message; no permission is asked for and nothing
    else happens. *)
Theorem unknown_accession_is_not_found (req : Request) (w : World) :
  require_api_auth req = None ->
  require_oauth_scopes req = None ->
  session w !! route_accession_id req = None ->
  let e := HTTPException 404 ("Accession_id " ++ route_accession_id req
                              ++ " not found.") in
  get_view req w = (Raise e, w)
  /\ patch_view req w = (Raise e, w)
  /\ download_view req w = (Raise e, w).
Proof.
  intros H1 H2 Ha e. subst e. unfold_view. by rewrite H1, H2, Ha.
Qed.

(** X2. Authentication and the OAuth scope are checked before the accession
    is looked up: a request they turn down gets their error from the
    three views, known accession or not, and nothing happens. *)
Theorem authentication_is_checked_first (req : Request) (w : World)
    (e : Exn) :
  require_api_auth req = Some e
  \/ (require_api_auth req = None /\ require_oauth_scopes req = Some e) ->
  get_view req w = (Raise e, w)
  /\ patch_view req w = (Raise e, w)
  /\ download_view req w = (Raise e, w).
Proof.
  intros [H1 | [H1 H2]]; unfold_view; by rewrite H1, ?H2.
Qed.

(** X3. Without the permission the handler does not run: a live GET sends
    no request, a PATCH changes and commits nothing and dispatches
    nothing.  The permission asked for is the one on the accession of
    the record. *)
Theorem denied_permission_runs_nothing (req : Request) (w : World)
    (a : Archive_) :
  require_api_auth req = None ->
  require_oauth_scopes req = None ->
  session w !! route_accession_id req = Some a ->
  (permission_granted "archive-read" (accession_id a) = false ->
   snd (get_view req w)
   = mkWorld (session w) (database w) (dispatched w) (requested w)
             (checked w ++ [("archive-read", accession_id a)]))
  /\ (permission_granted "archive-write" (accession_id a) = false ->
      snd (patch_view req w)
      = mkWorld (session w) (database w) (dispatched w) (requested w)
                (checked w ++ [("archive-write", accession_id a)])).
Proof.
  intros H1 H2 Ha. split; intros Hp.
  - rewrite (get_view_reaches _ _ _ H1 H2 Ha). cbv zeta. by rewrite Hp.
  - rewrite (patch_view_reaches _ _ _ H1 H2 Ha). cbv zeta. by rewrite Hp.
Qed.

(** X4. A GET that does not ask for the real status (the field is absent or
    false) is answered from the cache, whatever the status of the
    record: the only trace it leaves is the permission check. *)
Theorem get_view_answers_from_cache (req : Request) (w : World)
    (a : Archive_) :
  require_api_auth req = None ->
  require_oauth_scopes req = None ->
  session w !! route_accession_id req = Some a ->
  permission_granted "archive-read" (accession_id a) = true ->
  json_realStatus req = None \/ json_realStatus req = Some false ->
  get_view req w =
  (Ok (jsonify (to_json_obj a) 200),
   mkWorld (session w) (database w) (dispatched w) (requested w)
           (checked w ++ [("archive-read", accession_id a)])).
Proof.
  intros H1 H2 Ha Hp Hr.
  rewrite (get_view_reaches _ _ _ H1 H2 Ha). cbv zeta. rewrite Hp.
  assert (default false (json_realStatus req) = false) as ->.
  { by destruct Hr as [-> | ->]. }
  erewrite get_run by (cbn [session]; exact Ha). reflexivity.
Qed.

(** ** Calls in a row *)

(** X11. After a pivot that leaves the record in PROCESSING_AIP, the next
    live query on it does not reach the Archival Service: the record is
    no longer WAITING, the transfer block is skipped, and [params] is
    unbound.  A package still in process when the transfer completes is
    never seen registered by later queries. *)
Theorem get_after_pivot_raises (w : World) (archive : string)
    (a : Archive_) (r1 r2 : UpstreamResponse) (s1 P s2 : string) :
  session w !! archive = Some a ->
  accession_id a = archive ->
  status a = WAITING \/ status a = PROCESSING_TRANSFER ->
  archivematica_id a ≠ "" ->
  network (transfer_status_url (archivematica_id a)) dashboard_params
    = Answered r1 ->
  ok r1 = true ->
  json_item r1 "status" = Ok s1 ->
  status_converter s1 false = Ok (Some REGISTERED) ->
  json_item r1 "sip_uuid" = Ok P ->
  P ≠ "" ->
  network (ingest_status_url P) dashboard_params = Answered r2 ->
  ok r2 = true ->
  json_item r2 "status" = Ok s2 ->
  status_converter s2 true = Ok (Some PROCESSING_AIP) ->
  get archive true (snd (get archive true w))
  = (Raise (UnboundLocalError "params"), snd (get archive true w)).
Proof.
  intros Ha Hacc Hs Hid Hn1 Hok1 Hj1 Hc1 Hp HP Hn2 Hok2 Hj2 Hc2.
  rewrite (get_polls_transfer _ _ _ Ha Hs Hid).
  rewrite (get_transfer_pivot _ _ _ _ _ _ Ha Hacc Hn1 Hok1 Hj1 Hc1 Hp).
  cbv beta iota zeta.
  set (pivoted := mkArchive (sip_id a) PROCESSING_AIP (accession_id a) P).
  erewrite get_ingest_same with (a := pivoted) (r := r2) (s := s2);
    [| cbn [session]; apply lookup_insert_eq | done ..].
  cbn [snd].
  apply get_ingest_unbound_params with (a := pivoted).
  - cbn [session]. apply lookup_insert_eq.
  - left. reflexivity.
  - exact HP.
Qed.

(** X16. A record that a PATCH has put in FAILED is answered from the cache
    from then on: a live query on it sends nothing to the Archival
    Service. *)
Theorem patched_to_failed_is_not_polled (w : World) (archive : string)
    (a : Archive_) (st amid : string) :
  session w !! archive = Some a ->
  accession_id a = archive ->
  status_converter st false = Ok (Some FAILED) ->
  exists a',
    session (snd (patch archive st amid w)) !! archive = Some a'
    /\ status a' = FAILED
    /\ get archive true (snd (patch archive st amid w))
       = (Ok (jsonify (to_json_obj a') 200), snd (patch archive st amid w)).
Proof.
  intros Ha Hacc Hc. rewrite (patch_run _ _ _ _ _ Ha Hacc). cbv zeta.
  rewrite Hc.
  destruct (decide _) as [E|E]; cbn [snd session]; eexists;
    (split; [apply lookup_insert_eq|]);
    (split; [done|]);
    (erewrite get_run by (cbn [session]; apply lookup_insert_eq));
    cbn [negb orb status set_status];
    rewrite <- ?E; reflexivity.
Qed.

End Views.

(** ** The views at work *)

Lemma get_returns_cached_record_new :
  get sample_config sample_converter service_down "A1" true (world_of new_empty)
  = (Ok (jsonify (to_json_obj new_empty) 200), world_of new_empty).
Proof.
  apply (get_returns_cached_record sample_config sample_converter service_down
           (world_of new_empty) "A1" new_empty true).
  - vm_compute. reflexivity.
  - right. right. left. reflexivity.
Defined.

Lemma download_requires_registered_waiting :
  download sample_config service_storage "A1" (world_of waiting_T1)
  = (Ok (make_response "Archive has not been registered yet." 412),
     world_of waiting_T1).
Proof.
  apply (download_requires_registered sample_config service_storage
           (world_of waiting_T1) "A1" waiting_T1).
  - vm_compute. reflexivity.
  - left. discriminate.
Defined.

(** C2. On a cached PROCESSING_AIP archive with an identifier, a live
    query does not poll the ingest endpoint: the transfer block is
    skipped, [params] is unbound when [requests.get] is called, and the
    handler raises instead of returning the record.  Nothing is requested
    although the Archival Service would have answered. *)
Theorem get_processing_aip_raises :
  get sample_config sample_converter service_ingest_processing "A1" true
      (world_of processing_aip_P)
  = (Raise (UnboundLocalError "params"), world_of processing_aip_P).
Proof.
  apply get_ingest_unbound_params with (a := processing_aip_P).
  - vm_compute. reflexivity.
  - left. reflexivity.
  - discriminate.
Qed.

Lemma patch_rejects_bogus_status :
  let req := request_for "A1" (Some "BOGUS") (Some "T2") None in
  let out := patch_view sample_converter let_through let_through grant_all
                        req (world_of waiting_T1) in
  sample_converter "BOGUS" false = Raise (InvalidStatus "BOGUS")
  /\ fst out = Raise (ValidationError "status")
  /\ session (snd out) = session (world_of waiting_T1)
  /\ database (snd out) = database (world_of waiting_T1)
  /\ dispatched (snd out) = [].
Proof.
  intros req out.
  destruct (patch_rejects_unrecognised_status sample_converter let_through
              let_through grant_all req (world_of waiting_T1) "BOGUS"
              (InvalidStatus "BOGUS"))
    as (_ & Hs & Hd & Hdisp & _ & Hv).
  - reflexivity.
  - vm_compute. reflexivity.
  - split; [vm_compute; reflexivity|].
    split; [|by repeat split].
    apply (Hv waiting_T1); reflexivity.
Defined.



Lemma get_relays_failed_polls :
  get sample_config sample_converter service_transfer_fails "A1" true
      (world_of waiting_T1)
  = (Ok (jsonify [] 500),
     mkWorld {[ "A1" := waiting_T1 ]} {[ "A1" := waiting_T1 ]} []
             [mkOutbound transfer_url_T1 (mkParams "user" "key") false] [])
  /\ get sample_config sample_converter service_ingest_fails "A1" true
         (world_of waiting_T1)
     = (Ok (jsonify [] 500),
        mkWorld (<[ "A1" := processing_aip_P ]> {[ "A1" := waiting_T1 ]})
                (<[ "A1" := processing_aip_P ]> {[ "A1" := waiting_T1 ]})
                [mkDispatch PROCESSING_AIP "S1" "A1" "P"]
                [mkOutbound transfer_url_T1 (mkParams "user" "key") false;
                 mkOutbound ingest_url_P (mkParams "user" "key") false] []).
Proof.
  split.
  - apply (proj1 (get_relays_failed_poll sample_config sample_converter
                    service_transfer_fails (world_of waiting_T1) "A1"
                    waiting_T1 (error_answer 500) eq_refl
                    (or_introl eq_refl) ltac:(discriminate) eq_refl)).
    reflexivity.
  - apply (proj2 (get_relays_failed_poll sample_config sample_converter
                    service_ingest_fails (world_of waiting_T1) "A1"
                    waiting_T1 transfer_complete_P eq_refl
                    (or_introl eq_refl) ltac:(discriminate) eq_refl)
             "COMPLETE" "P" (error_answer 500));
      vm_compute; reflexivity.
Defined.

Lemma patch_twice_processing :
  let w1 := snd (patch sample_converter "A1" "PROCESSING" "T2"
                       (world_of waiting_T1)) in
  dispatched w1 = [mkDispatch PROCESSING_TRANSFER "S1" "A1" "T2"]
  /\ patch sample_converter "A1" "PROCESSING" "T2" w1
     = (Ok (jsonify (to_json_obj (mkArchive "S1" PROCESSING_TRANSFER "A1" "T2"))
                    200), w1)
  /\ patch sample_converter "A1" "WAITING" "T1" (world_of waiting_T1)
     = (Ok (jsonify (to_json_obj waiting_T1) 200), world_of waiting_T1).
Proof.
  intros w1. split; [vm_compute; reflexivity|]. split.
  - subst w1.
    rewrite (proj2 (patch_is_idempotent sample_converter (world_of waiting_T1)
                      "A1" waiting_T1 "PROCESSING" "T2" eq_refl eq_refl)).
    f_equal.
  - destruct (proj1 (patch_is_idempotent sample_converter (world_of waiting_T1)
                       "A1" waiting_T1 "WAITING" "T1" eq_refl eq_refl)
                eq_refl eq_refl) as (Hr & _ & _).
    vm_compute. reflexivity.
Defined.



(** ** Where the code departs from the stated behaviour *)


(** C3 does not hold as stated.  When the ingest poll that follows the
    pivot fails, the failure is relayed, but the record has been
    changed by the call: it carries the identifier of the package and is
    in PROCESSING_AIP, in the session and in the database, and
    [change_status_func] has been called. *)
Lemma get_failed_ingest_poll_counterexample :
  let w := world_of waiting_T1 in
  let out := get sample_config sample_converter service_ingest_fails
                 "A1" true w in
  fst out = Ok (jsonify [] 500)
  /\ session (snd out) !! "A1" = Some processing_aip_P
  /\ session (snd out) !! "A1" ≠ session w !! "A1"
  /\ database (snd out) !! "A1" ≠ database w !! "A1"
  /\ dispatched (snd out) ≠ dispatched w.
Proof.
  vm_compute. repeat split; try reflexivity; discriminate.
Qed.


(** ** More runs of the views *)

Lemma get_polls_transfer_before_ingest_complete :
  let T := mkOutbound (transfer_status_url sample_config
                         (archivematica_id waiting_T1))
                      (dashboard_params sample_config) false in
  let rs := requested (snd (get sample_config sample_converter
                                service_package_complete "A1" true
                                (world_of waiting_T1))) in
  rs = requested (world_of waiting_T1)
  \/ rs = (requested (world_of waiting_T1) ++ [T])%list
  \/ exists P, rs = (requested (world_of waiting_T1)
                     ++ [T; mkOutbound (ingest_status_url sample_config P)
                                       (dashboard_params sample_config)
                                       false])%list.
Proof.
  apply (get_polls_transfer_before_ingest sample_config sample_converter
           service_package_complete (world_of waiting_T1) "A1" waiting_T1
           true); reflexivity.
Defined.


Lemma get_touches_one_record_of_two :
  let out := get sample_config sample_converter service_package_complete
                 "A1" true (world_of_two waiting_T1 other_archive) in
  session (snd out) !! "A2" = Some other_archive
  /\ (exists a', session (snd out) !! "A1" = Some a'
                 /\ sip_id a' = "S1" /\ accession_id a' = "A1")
  /\ (exists ds, dispatched (snd out) = ([] ++ ds)%list
                 /\ (List.length ds <= 2)%nat
                 /\ Forall (fun d => d_sip d = "S1"
                                     /\ d_accession_id d = "A1") ds).
Proof.
  intros out.
  destruct (get_touches_one_record sample_config sample_converter
              service_package_complete
              (world_of_two waiting_T1 other_archive) "A1" waiting_T1 true)
    as (Hk & Ha & Hd).
  - vm_compute. reflexivity.
  - reflexivity.
  - split; [|split; [exact Ha | exact Hd]].
    subst out. rewrite (Hk "A2") by discriminate.
    vm_compute. reflexivity.
Defined.

Lemma get_follows_failed_transfer :
  get sample_config sample_converter service_transfer_failed "A1" true
      (world_of waiting_T1)
  = (Ok (jsonify (to_json_obj (mkArchive "S1" FAILED "A1" "T1")) 200),
     mkWorld (<[ "A1" := mkArchive "S1" FAILED "A1" "T1" ]>
                {[ "A1" := waiting_T1 ]})
             (<[ "A1" := mkArchive "S1" FAILED "A1" "T1" ]>
                {[ "A1" := waiting_T1 ]})
             [mkDispatch FAILED "S1" "A1" "T1"]
             [mkOutbound transfer_url_T1 (mkParams "user" "key") false] []).
Proof.
  apply (get_follows_transfer_status sample_config sample_converter
           service_transfer_failed (world_of waiting_T1) "A1" waiting_T1
           (status_answer "FAILED") "FAILED" FAILED);
    try (vm_compute; reflexivity); try discriminate.
  left. reflexivity.
Defined.

Lemma get_lets_connection_error_through_down :
  get sample_config sample_converter service_down "A1" true
      (world_of waiting_T1)
  = (Raise ConnectionError,
     mkWorld {[ "A1" := waiting_T1 ]} {[ "A1" := waiting_T1 ]} []
             [mkOutbound transfer_url_T1 (mkParams "user" "key") false] [])
  /\ (fst (get sample_config sample_converter service_ingest_unreachable
               "A1" true (world_of waiting_T1)) = Raise ConnectionError
      /\ session (snd (get sample_config sample_converter
                           service_ingest_unreachable "A1" true
                           (world_of waiting_T1))) !! "A1"
         = Some processing_aip_P
      /\ dispatched (snd (get sample_config sample_converter
                              service_ingest_unreachable "A1" true
                              (world_of waiting_T1)))
         = [mkDispatch PROCESSING_AIP "S1" "A1" "P"]).
Proof.
  split.
  - apply (proj1 (get_lets_connection_error_through sample_config
                    sample_converter service_down (world_of waiting_T1)
                    "A1" waiting_T1 eq_refl eq_refl (or_introl eq_refl)
                    ltac:(discriminate))).
    reflexivity.
  - apply (proj2 (get_lets_connection_error_through sample_config
                    sample_converter service_ingest_unreachable
                    (world_of waiting_T1) "A1" waiting_T1 eq_refl eq_refl
                    (or_introl eq_refl) ltac:(discriminate))
             transfer_complete_P "COMPLETE" "P");
      vm_compute; reflexivity.
Defined.

Lemma get_rejects_transfer_without_package :
  get sample_config sample_converter service_transfer_no_package "A1" true
      (world_of waiting_T1)
  = (Raise (KeyError "sip_uuid"),
     mkWorld {[ "A1" := waiting_T1 ]} {[ "A1" := waiting_T1 ]} []
             [mkOutbound transfer_url_T1 (mkParams "user" "key") false] []).
Proof.
  apply (get_rejects_unreadable_transfer_answer sample_config
           sample_converter service_transfer_no_package
           (world_of waiting_T1) "A1" waiting_T1 (status_answer "COMPLETE")
           (KeyError "sip_uuid"));
    try (vm_compute; reflexivity); try discriminate.
  - left. reflexivity.
  - right. exists "COMPLETE". split; [vm_compute; reflexivity|].
    right. split; vm_compute; reflexivity.
Defined.

Lemma patch_touches_one_record_of_two :
  let out := patch sample_converter "A1" "PROCESSING" "T2"
                   (world_of_two waiting_T1 other_archive) in
  requested (snd out) = []
  /\ session (snd out) !! "A2" = Some other_archive
  /\ (exists a', session (snd out) !! "A1" = Some a'
                 /\ sip_id a' = "S1"
                 /\ accession_id a' = "A1"
                 /\ archivematica_id a' = "T2").
Proof.
  intros out.
  destruct (patch_touches_one_record sample_converter
              (world_of_two waiting_T1 other_archive) "A1" waiting_T1
              "PROCESSING" "T2")
    as (Hr & Hk & Ha).
  - vm_compute. reflexivity.
  - reflexivity.
  - split; [exact Hr|]. split; [|exact Ha].
    subst out. rewrite (Hk "A2") by discriminate.
    vm_compute. reflexivity.
Defined.

Lemma patch_dispatches_processing :
  let out := patch sample_converter "A1" "PROCESSING" ""
                   (world_of waiting_T1) in
  fst out = Ok (jsonify (to_json_obj processing_transfer_T1) 200)
  /\ session (snd out) !! "A1" = Some processing_transfer_T1
  /\ dispatched (snd out) = [mkDispatch PROCESSING_TRANSFER "S1" "A1" "T1"].
Proof.
  apply (patch_dispatches_new_status sample_converter (world_of waiting_T1)
           "A1" waiting_T1 "PROCESSING" "" PROCESSING_TRANSFER);
    try (vm_compute; reflexivity).
  discriminate.
Defined.

Lemma patch_answers_validated_registered :
  exists a',
    session (snd (patch sample_converter "A1" "REGISTERED" "P"
                        (world_of waiting_T1))) !! "A1" = Some a'
    /\ fst (patch sample_converter "A1" "REGISTERED" "P"
                  (world_of waiting_T1))
       = Ok (jsonify (to_json_obj a') 200)
    /\ (List.length (dispatched (snd (patch sample_converter "A1" "REGISTERED"
                                            "P" (world_of waiting_T1))))
        <= List.length (dispatched (world_of waiting_T1)) + 1)%nat.
Proof.
  apply (patch_answers_validated_status sample_converter
           (world_of waiting_T1) "A1" waiting_T1 "REGISTERED" "P");
    vm_compute; reflexivity.
Defined.

Lemma patch_commits_identifier_then_raises :
  let out := patch sample_converter "A1" "" "T2" (world_of waiting_T1) in
  fst out = Raise (InvalidStatus "")
  /\ database (snd out) !! "A1" = Some (set_archivematica_id "T2" waiting_T1)
  /\ dispatched (snd out) = [].
Proof.
  apply (patch_commits_before_conversion sample_converter
           (world_of waiting_T1) "A1" waiting_T1 "" "T2" (InvalidStatus ""));
    try (vm_compute; reflexivity).
  discriminate.
Defined.

Lemma download_answers_520_when_down :
  download sample_config service_down "A1" (world_of registered_P)
  = (Ok (make_response "Connection problem with Archivematica" 520),
     mkWorld {[ "A1" := registered_P ]} {[ "A1" := registered_P ]} []
             [mkOutbound storage_url_P (mkParams "suser" "skey") true] []).
Proof.
  apply (download_answers_520_when_unreachable sample_config service_down
           (world_of registered_P) "A1" registered_P);
    try (vm_compute; reflexivity).
  discriminate.
Defined.

Lemma download_relays_404 :
  download sample_config service_storage_error "A1" (world_of registered_P)
  = (Ok (make_response "" 404),
     mkWorld {[ "A1" := registered_P ]} {[ "A1" := registered_P ]} []
             [mkOutbound storage_url_P (mkParams "suser" "skey") true] [])
  /\ 400 <= 404 < 600.
Proof.
  apply (download_relays_upstream_error sample_config service_storage_error
           (world_of registered_P) "A1" registered_P (error_answer 404));
    try (vm_compute; reflexivity).
  discriminate.
Defined.


Lemma unknown_accession_A9 :
  let req := request_for "A9" None None (Some true) in
  let e := HTTPException 404 "Accession_id A9 not found." in
  let w := world_of waiting_T1 in
  get_view sample_config sample_converter service_down let_through
           let_through grant_all req w = (Raise e, w)
  /\ patch_view sample_converter let_through let_through grant_all req w
     = (Raise e, w)
  /\ download_view sample_config service_down let_through let_through req w
     = (Raise e, w).
Proof.
  apply (unknown_accession_is_not_found sample_config sample_converter
           service_down let_through let_through grant_all
           (request_for "A9" None None (Some true)) (world_of waiting_T1));
    vm_compute; reflexivity.
Defined.

Lemma turned_down_before_lookup :
  let req := request_for "A9" None None None in
  let e := HTTPException 401 "" in
  let w := world_of waiting_T1 in
  get_view sample_config sample_converter service_down turn_down
           let_through grant_all req w = (Raise e, w)
  /\ patch_view sample_converter turn_down let_through grant_all req w
     = (Raise e, w)
  /\ download_view sample_config service_down turn_down let_through req w
     = (Raise e, w).
Proof.
  apply (authentication_is_checked_first sample_config sample_converter
           service_down turn_down let_through grant_all
           (request_for "A9" None None None) (world_of waiting_T1)
           (HTTPException 401 "")).
  left. reflexivity.
Defined.

Lemma denied_patch_changes_nothing :
  let w := world_of waiting_T1 in
  snd (get_view sample_config sample_converter service_package_complete
                let_through let_through deny_all
                (request_for "A1" None None (Some true)) w)
  = mkWorld (session w) (database w) (dispatched w) (requested w)
            [("archive-read", "A1")]
  /\ snd (patch_view sample_converter let_through let_through deny_all
                     (request_for "A1" (Some "FAILED") (Some "T2") None) w)
     = mkWorld (session w) (database w) (dispatched w) (requested w)
               [("archive-write", "A1")].
Proof.
  split.
  - apply (proj1 (denied_permission_runs_nothing sample_config
                    sample_converter service_package_complete let_through
                    let_through deny_all
                    (request_for "A1" None None (Some true))
                    (world_of waiting_T1) waiting_T1
                    eq_refl eq_refl eq_refl)).
    reflexivity.
  - apply (proj2 (denied_permission_runs_nothing sample_config
                    sample_converter service_package_complete let_through
                    let_through deny_all
                    (request_for "A1" (Some "FAILED") (Some "T2") None)
                    (world_of waiting_T1) waiting_T1
                    eq_refl eq_refl eq_refl)).
    reflexivity.
Defined.

Lemma get_view_answers_waiting_from_cache :
  get_view sample_config sample_converter service_package_complete
           let_through let_through grant_all
           (request_for "A1" None None None) (world_of waiting_T1)
  = (Ok (jsonify (to_json_obj waiting_T1) 200),
     mkWorld {[ "A1" := waiting_T1 ]} {[ "A1" := waiting_T1 ]} [] []
             [("archive-read", "A1")]).
Proof.
  apply (get_view_answers_from_cache sample_config sample_converter
           service_package_complete let_through let_through grant_all
           (request_for "A1" None None None) (world_of waiting_T1)
           waiting_T1); try reflexivity.
  left. reflexivity.
Defined.

Lemma get_after_pivot_raises_processing :
  let w' := snd (get sample_config sample_converter
                     service_package_processing "A1" true
                     (world_of waiting_T1)) in
  get sample_config sample_converter service_package_processing "A1" true w'
  = (Raise (UnboundLocalError "params"), w').
Proof.
  apply (get_after_pivot_raises sample_config sample_converter
           service_package_processing (world_of waiting_T1) "A1" waiting_T1
           transfer_complete_P (status_answer "PROCESSING")
           "COMPLETE" "P" "PROCESSING");
    try (vm_compute; reflexivity); try discriminate.
  left. reflexivity.
Defined.

Lemma patched_to_failed_is_not_polled_T1 :
  exists a',
    session (snd (patch sample_converter "A1" "FAILED" ""
                        (world_of waiting_T1))) !! "A1" = Some a'
    /\ status a' = FAILED
    /\ get sample_config sample_converter service_package_complete "A1" true
           (snd (patch sample_converter "A1" "FAILED" ""
                       (world_of waiting_T1)))
       = (Ok (jsonify (to_json_obj a') 200),
          snd (patch sample_converter "A1" "FAILED" "" (world_of waiting_T1))).
Proof.
  apply (patched_to_failed_is_not_polled sample_config sample_converter
           service_package_complete (world_of waiting_T1) "A1" waiting_T1
           "FAILED" ""); vm_compute; reflexivity.
Defined.
